(** * Dashboard aggregation hook and STK-push route: a shallow embedding

    The development follows [useSystemValidation] (the React hook that
    validates the dashboard metrics once, then keeps them live through
    three Firestore listeners and a self re-arming midnight timer) and
    the [POST] handler of [app/api/mpesa/stkpush/route.ts].

    Conventions.
    - JavaScript numbers that occur here (amounts in shillings, unread
      counters, millisecond time stamps) are integers and are modelled
      by [Z]; for an integer, JavaScript truthiness is "different from 0".
    - An optional document field is an [option]; [None] is JavaScript's
      [undefined].
    - Wall-clock readings ([new Date()]) are inputs of every handler. *)

From Stdlib Require Import ZArith List String Ascii Bool Lia Permutation.
Import ListNotations.
Open Scope Z_scope.

(* ===================================================================== *)
(** ** JavaScript operators used by the reducers *)
(* ===================================================================== *)

Module Js.

(** Truthiness of an optional numeric field: [undefined] and [0] are
    falsy, every other number is truthy. *)
Definition truthy (v : option Z) : bool :=
  match v with
  | Some n => negb (n =? 0)
  | None => false
  end.

(** [a || b]: the left operand when it is truthy, else the right one. *)
Definition or (a b : option Z) : option Z :=
  if truthy a then a else b.

(** The numeric operand of [sum + v]; the reducers only ever add a
    value of the form [... || 0], which is a number. *)
Definition num (v : option Z) : Z :=
  match v with
  | Some n => n
  | None => 0
  end.

(** [a === b] between a possibly missing string field and a string. *)
Definition strict_eq (a : option string) (b : string) : bool :=
  match a with
  | Some s => String.eqb s b
  | None => false
  end.

End Js.

(* ===================================================================== *)
(** ** Documents of the three collections *)
(* ===================================================================== *)

Record Booking := mkBooking {
  booking_id : string;
  date : option string;
  status : option string;
  revenue : option Z;
  price : option Z
}.

Record Conversation := mkConversation {
  conversation_id : string;
  unreadCount : option Z
}.

Record Client := mkClient {
  client_id : string
}.

(** [interface SystemStats]; [lastUpdate] is a time stamp in ms. *)
Record SystemStats := mkStats {
  todaysBookings : Z;
  pendingMessages : Z;
  activeCustomers : Z;
  revenueToday : Z;
  lastUpdate : Z
}.

(* ===================================================================== *)
(** ** The reducers, as the three computation sites write them *)
(* ===================================================================== *)

Module Aggregate.

(** [(booking) => booking.date === currentDate] *)
Definition isToday (currentDate : string) (b : Booking) : bool :=
  Js.strict_eq (date b) currentDate.

(** [(booking) => booking.status === "completed"] *)
Definition isCompleted (b : Booking) : bool :=
  Js.strict_eq (status b) "completed".

(** [booking.revenue || booking.price || 0] *)
Definition amount (b : Booking) : Z :=
  Js.num (Js.or (Js.or (revenue b) (price b)) (Some 0)).

(** [(sum, booking) => sum + (booking.revenue || booking.price || 0)] *)
Definition addRevenue (sum : Z) (b : Booking) : Z :=
  sum + amount b.

(** [completedBookings.reduce(..., 0)] after
    [bookings.filter(status === "completed")]. *)
Definition revenueOf (bookings : list Booking) : Z :=
  fold_left addRevenue (filter isCompleted bookings) 0.

(** [query(collection(db, "bookings"), where("date", "==", today))]:
    the store returns the documents whose [date] field equals [today]. *)
Definition queryByDate (today : string) (all : list Booking) : list Booking :=
  filter (isToday today) all.

(** [allBookings.filter((booking) => booking.date === currentDate)] *)
Definition todaysOf (currentDate : string) (all : list Booking) : list Booking :=
  filter (isToday currentDate) all.

(** [.length] as a JavaScript number. *)
Definition len {A} (l : list A) : Z := Z.of_nat (List.length l).

(** Site 1, the one-shot validation: the query filters by date. *)
Definition validationBookings (today : string) (all : list Booking) : Z :=
  len (queryByDate today all).
Definition validationRevenue (today : string) (all : list Booking) : Z :=
  revenueOf (queryByDate today all).

(** Site 2, the bookings listener: the client filters by date. *)
Definition listenerBookings (currentDate : string) (all : list Booking) : Z :=
  len (todaysOf currentDate all).
Definition listenerRevenue (currentDate : string) (all : list Booking) : Z :=
  revenueOf (todaysOf currentDate all).

(** Site 3, the continuation of the midnight re-fetch. *)
Definition midnightBookings (currentDate : string) (all : list Booking) : Z :=
  len (todaysOf currentDate all).
Definition midnightRevenue (currentDate : string) (all : list Booking) : Z :=
  revenueOf (todaysOf currentDate all).

(** [(sum, conv) => sum + (conv.unreadCount || 0)] *)
Definition addUnread (sum : Z) (c : Conversation) : Z :=
  sum + Js.num (Js.or (unreadCount c) (Some 0)).

(** [conversations.reduce(..., 0)] *)
Definition pendingOf (conversations : list Conversation) : Z :=
  fold_left addUnread conversations 0.

End Aggregate.

(* ===================================================================== *)
(** ** The metrics as the specification words them *)
(* ===================================================================== *)

Module Spec.

(** "date(b) = D" *)
Definition onDay (D : string) (b : Booking) : bool :=
  match date b with
  | Some d => String.eqb d D
  | None => false
  end.

(** "status(b) = completed" *)
Definition completed (b : Booking) : bool :=
  match status b with
  | Some s => String.eqb s "completed"
  | None => false
  end.

(** "revenue if present, else price if present, else 0" *)
Definition presentAmount (b : Booking) : Z :=
  match revenue b with
  | Some r => r
  | None => match price b with
            | Some p => p
            | None => 0
            end
  end.

(** What the reducers add: a field counts when it is present and not
    zero. *)
Definition nonzeroAmount (b : Booking) : Z :=
  match revenue b with
  | Some r => if r =? 0 then match price b with
                             | Some p => p
                             | None => 0
                             end
              else r
  | None => match price b with
            | Some p => p
            | None => 0
            end
  end.

(** The sum, over the bookings of day [D] that are completed, of a
    contribution [f]. *)
Fixpoint sumCompleted (f : Booking -> Z) (B : list Booking) (D : string) : Z :=
  match B with
  | [] => 0
  | b :: B' =>
      (if onDay D b && completed b then f b else 0) + sumCompleted f B' D
  end.

(** The number of bookings of day [D], whatever their status. *)
Fixpoint countOnDay (B : list Booking) (D : string) : Z :=
  match B with
  | [] => 0
  | b :: B' => (if onDay D b then 1 else 0) + countOnDay B' D
  end.

(** The sum of [unreadCount] over all conversations, a missing
    counter contributing 0. *)
Fixpoint sumUnread (C : list Conversation) : Z :=
  match C with
  | [] => 0
  | c :: C' =>
      match unreadCount c with
      | Some n => n
      | None => 0
      end + sumUnread C'
  end.

End Spec.

(* ===================================================================== *)
(** ** Errors and completions *)
(* ===================================================================== *)

(** A thrown value, as far as the handlers look at it: its [message]
    property, which may be missing. *)
Record JsError := mkError {
  message : option string
}.

(** How the evaluation of a block ends: normally with a value, or
    abruptly with a thrown error. *)
Inductive Completion (A : Type) : Type :=
| Normal (a : A)
| Throw (e : JsError).

Arguments Normal {A} a.
Arguments Throw {A} e.

(** [await p] inside a [try] block: a rejected promise throws. *)
Definition await {A} (p : JsError + A) : Completion A :=
  match p with
  | inr a => Normal a
  | inl e => Throw e
  end.

(** [try { body } catch (error) { handler }] *)
Definition tryCatch {A} (body : Completion A) (handler : JsError -> Completion A)
  : Completion A :=
  match body with
  | Normal a => Normal a
  | Throw e => handler e
  end.

(** The text a template literal gives for [${error.message}]. *)
Definition interpolate (m : option string) : string :=
  match m with
  | Some s => s
  | None => "undefined"
  end.

(* ===================================================================== *)
(** ** The live listeners and the midnight timer (second effect) *)
(* ===================================================================== *)

Module Listeners.

(** What a handler reads from the wall clock when it runs:
    [getToday()], [new Date().getTime()] and the time of the next
    local midnight, both in ms. *)
Record Clock := mkClock {
  today : string;
  now : Z;
  nextMidnight : Z
}.

Inductive Collection := Bookings | Conversations | Clients.

(** The calls a handler makes on its collaborators, in order. *)
Inductive Effect :=
| SetStats
| GetDocs
| SetTimeout (id : nat) (delay : Z)
| ClearTimeout (id : option nat)
| Unsubscribe (c : Collection).

(** The React state [stats], the two [let] variables of the effect
    closure, and the part of the host the closure talks to: pending
    timeouts, the re-fetches whose [.then] has not run yet, and the
    subscriptions that are still attached. *)
Record State := mkState {
  stats : SystemStats;
  currentDate : string;
  midnightTimer : option nat;
  timers : list (nat * Z);
  nextId : nat;
  inflight : nat;
  subBookings : bool;
  subConversations : bool;
  subClients : bool;
  trace : list Effect
}.

(** Handlers are state transformers. *)
Definition M (A : Type) : Type := State -> A * State.

Definition ret {A} (a : A) : M A := fun s => (a, s).
Definition bind {A B} (m : M A) (k : A -> M B) : M B :=
  fun s => let (a, s') := m s in k a s'.
Definition exec {A} (m : M A) (s : State) : State := snd (m s).

Declare Scope hook_scope.
Delimit Scope hook_scope with hook.
Notation "x <- m ;; k" := (bind m (fun x => k))
  (at level 61, m at next level, right associativity) : hook_scope.
Notation "m ;; k" := (bind m (fun _ => k))
  (at level 61, right associativity) : hook_scope.
Local Open Scope hook_scope.

Definition emit (e : Effect) : M unit := fun s =>
  (tt, mkState (stats s) (currentDate s) (midnightTimer s) (timers s)
         (nextId s) (inflight s) (subBookings s) (subConversations s)
         (subClients s) (trace s ++ [e])).

Definition readCurrentDate : M string := fun s => (currentDate s, s).

Definition writeCurrentDate (d : string) : M unit := fun s =>
  (tt, mkState (stats s) d (midnightTimer s) (timers s)
         (nextId s) (inflight s) (subBookings s) (subConversations s)
         (subClients s) (trace s)).

Definition readMidnightTimer : M (option nat) := fun s => (midnightTimer s, s).

Definition writeMidnightTimer (t : nat) : M unit := fun s =>
  (tt, mkState (stats s) (currentDate s) (Some t) (timers s)
         (nextId s) (inflight s) (subBookings s) (subConversations s)
         (subClients s) (trace s)).

(** [setStats((prev) => f(prev))] *)
Definition setStats (f : SystemStats -> SystemStats) : M unit := fun s =>
  emit SetStats
    (mkState (f (stats s)) (currentDate s) (midnightTimer s) (timers s)
       (nextId s) (inflight s) (subBookings s) (subConversations s)
       (subClients s) (trace s)).

(** [setTimeout(callback, delay)]: a fresh handle, pending from now. *)
Definition setTimeout (delay : Z) : M nat := fun s =>
  let id := nextId s in
  (id, snd (emit (SetTimeout id delay)
         (mkState (stats s) (currentDate s) (midnightTimer s)
            (timers s ++ [(id, delay)])
            (S id) (inflight s) (subBookings s) (subConversations s)
            (subClients s) (trace s)))).

Definition dropTimer (id : nat) (l : list (nat * Z)) : list (nat * Z) :=
  filter (fun t => negb (Nat.eqb (fst t) id)) l.

(** [clearTimeout(handle)]: nothing happens for [undefined] or for a
    handle that already fired. *)
Definition clearTimeout (h : option nat) : M unit := fun s =>
  emit (ClearTimeout h)
    (mkState (stats s) (currentDate s) (midnightTimer s)
       (match h with
        | Some id => dropTimer id (timers s)
        | None => timers s
        end)
       (nextId s) (inflight s) (subBookings s) (subConversations s)
       (subClients s) (trace s)).

(** [getDocs(bookingsQuery).then(continuation)]: the request leaves,
    the continuation runs when the host resolves it. *)
Definition getDocs : M unit := fun s =>
  emit GetDocs
    (mkState (stats s) (currentDate s) (midnightTimer s) (timers s)
       (nextId s) (S (inflight s)) (subBookings s) (subConversations s)
       (subClients s) (trace s)).

Definition unsubscribe (c : Collection) : M unit := fun s =>
  emit (Unsubscribe c)
    (mkState (stats s) (currentDate s) (midnightTimer s) (timers s)
       (nextId s) (inflight s)
       (match c with Bookings => false | _ => subBookings s end)
       (match c with Conversations => false | _ => subConversations s end)
       (match c with Clients => false | _ => subClients s end)
       (trace s)).

(** [Math.max(0, Math.floor((tomorrow.getTime() - now.getTime()) / 1000))] *)
Definition getSecondsUntilMidnight (c : Clock) : Z :=
  Z.max 0 ((nextMidnight c - now c) / 1000).

(** [setupMidnightReset]: arm a timeout and remember its handle. *)
Definition setupMidnightReset (c : Clock) : M unit :=
  let secondsUntilMidnight := getSecondsUntilMidnight c in
  id <- setTimeout (secondsUntilMidnight * 1000) ;;
  writeMidnightTimer id.

(** The merge of the bookings listener and of the midnight
    continuation: [{...prev, todaysBookings, revenueToday, lastUpdate}]. *)
Definition mergeBookings (count rev stamp : Z) (prev : SystemStats) : SystemStats :=
  mkStats count (pendingMessages prev) (activeCustomers prev) rev stamp.

(** [{...prev, pendingMessages, lastUpdate}] *)
Definition mergeConversations (pending stamp : Z) (prev : SystemStats) : SystemStats :=
  mkStats (todaysBookings prev) pending (activeCustomers prev)
    (revenueToday prev) stamp.

(** [{...prev, activeCustomers, lastUpdate}] *)
Definition mergeClients (active stamp : Z) (prev : SystemStats) : SystemStats :=
  mkStats (todaysBookings prev) (pendingMessages prev) active
    (revenueToday prev) stamp.

(** The callback of the midnight timeout, up to the re-fetch. *)
Definition onMidnight (c : Clock) : M unit :=
  writeCurrentDate (today c) ;;
  getDocs.

(** The [.then] continuation of the midnight re-fetch. It reads
    [currentDate] when it runs and re-arms without clearing. *)
Definition onRefetched (c : Clock) (allBookings : list Booking) : M unit :=
  d <- readCurrentDate ;;
  setStats (mergeBookings (Aggregate.midnightBookings d allBookings)
              (Aggregate.midnightRevenue d allBookings) (now c)) ;;
  setupMidnightReset c.

(** The callback of the bookings listener. *)
Definition onBookings (c : Clock) (allBookings : list Booking) : M unit :=
  let newDate := today c in
  d <- readCurrentDate ;;
  (if negb (String.eqb newDate d) then
     writeCurrentDate newDate ;;
     t <- readMidnightTimer ;;
     clearTimeout t ;;
     setupMidnightReset c
   else ret tt) ;;
  d' <- readCurrentDate ;;
  setStats (mergeBookings (Aggregate.listenerBookings d' allBookings)
              (Aggregate.listenerRevenue d' allBookings) (now c)).

(** The callback of the conversations listener. *)
Definition onConversations (c : Clock) (conversations : list Conversation) : M unit :=
  setStats (mergeConversations (Aggregate.pendingOf conversations) (now c)).

(** The callback of the clients listener. *)
Definition onClients (c : Clock) (docs : list Client) : M unit :=
  setStats (mergeClients (Aggregate.len docs) (now c)).

(** The function the effect returns. *)
Definition cleanup : M unit :=
  t <- readMidnightTimer ;;
  clearTimeout t ;;
  unsubscribe Bookings ;;
  unsubscribe Conversations ;;
  unsubscribe Clients.

(** The state right after the effect body ran with the latch set:
    [currentDate = getToday()], one armed timeout, three listeners. *)
Definition mounted (c : Clock) (st : SystemStats) : State :=
  exec (setupMidnightReset c)
    (mkState st (today c) None [] 0%nat 0%nat true true true []).

(** What the host can deliver to the closure. *)
Inductive Event :=
| TimerFires (id : nat) (c : Clock)
| RefetchResolves (c : Clock) (docs : list Booking)
| BookingsSnapshot (c : Clock) (docs : list Booking)
| ConversationsSnapshot (c : Clock) (docs : list Conversation)
| ClientsSnapshot (c : Clock) (docs : list Client)
| Teardown.

Definition isPending (id : nat) (s : State) : bool :=
  existsb (fun t => Nat.eqb (fst t) id) (timers s).

Definition consumeTimer (id : nat) : M unit := fun s =>
  (tt, mkState (stats s) (currentDate s) (midnightTimer s)
         (dropTimer id (timers s))
         (nextId s) (inflight s) (subBookings s) (subConversations s)
         (subClients s) (trace s)).

Definition settleRefetch : M unit := fun s =>
  (tt, mkState (stats s) (currentDate s) (midnightTimer s) (timers s)
         (nextId s) (Nat.pred (inflight s)) (subBookings s)
         (subConversations s) (subClients s) (trace s)).

(** One event, handled to completion. A timeout fires only while it
    is pending, a continuation runs only for a re-fetch that is in
    flight, and a snapshot reaches a callback only while its listener
    is attached: the host drops everything else. *)
Definition step (e : Event) (s : State) : State :=
  match e with
  | TimerFires id c =>
      if isPending id s then exec (consumeTimer id ;; onMidnight c) s else s
  | RefetchResolves c docs =>
      match inflight s with
      | O => s
      | S _ => exec (settleRefetch ;; onRefetched c docs) s
      end
  | BookingsSnapshot c docs =>
      if subBookings s then exec (onBookings c docs) s else s
  | ConversationsSnapshot c docs =>
      if subConversations s then exec (onConversations c docs) s else s
  | ClientsSnapshot c docs =>
      if subClients s then exec (onClients c docs) s else s
  | Teardown => exec cleanup s
  end.

Definition run (es : list Event) (s : State) : State :=
  fold_left (fun s e => step e s) es s.

(** [AggregateState] without its time stamp. *)
Definition metrics (st : SystemStats) : Z * Z * Z * Z :=
  (todaysBookings st, pendingMessages st, activeCustomers st, revenueToday st).

(** Number of timeouts armed between two states. *)
Definition armedBetween (s s' : State) : nat := (nextId s' - nextId s)%nat.

(** The effects a handler appended to the trace. *)
Definition newEffects (s s' : State) : list Effect :=
  skipn (List.length (trace s)) (trace s').

End Listeners.

(* ===================================================================== *)
(** ** The one-shot validation (first effect) *)
(* ===================================================================== *)

Module Validation.

(** The local variables of a [runValidation] call that is suspended
    at one of its three [await getDocs(...)]. *)
Inductive Run :=
| AwaitBookings (today : string)
| AwaitConversations (bookings : list Booking) (revenue : Z)
| AwaitClients (bookings : list Booking) (revenue : Z) (pendingMessages : Z).

(** [toast.success] carries the four published numbers,
    [toast.error] its text. *)
Inductive Toast :=
| ToastSuccess (todaysBookings pendingMessages activeCustomers revenueToday : Z)
| ToastError (text : string).

(** The values of [useAdminAuth] and [useState], the handle the
    current cleanup closes over ([None] when the effect returned
    early), the host's pending timeouts, the suspended runs, and
    counters of what happened so far. *)
Record State := mkState {
  isAdmin : bool;
  user : option nat;
  isValidated : bool;
  stats : SystemStats;
  timer : option nat;
  timers : list nat;
  nextId : nat;
  runs : list (nat * Run);
  started : nat;
  fetches : nat;
  published : nat;
  toasts : list Toast
}.

(** [useState] initial values, before the session is known. *)
Definition zeroStats (stamp : Z) : SystemStats := mkStats 0 0 0 0 stamp.

Definition init (stamp : Z) : State :=
  mkState false None false (zeroStats stamp) None [] 0%nat [] 0%nat 0%nat 0%nat [].

(** [return () => clearTimeout(timer)] of the previous effect run. *)
Definition cleanup (s : State) : State :=
  match timer s with
  | Some t =>
      mkState (isAdmin s) (user s) (isValidated s) (stats s) None
        (filter (fun x => negb (Nat.eqb x t)) (timers s))
        (nextId s) (runs s) (started s) (fetches s) (published s) (toasts s)
  | None => s
  end.

(** [!user]: [null] is falsy, a user object is truthy. *)
Definition noUser (u : option nat) : bool :=
  match u with
  | Some _ => false
  | None => true
  end.

(** The effect body:
    [if (!isAdmin || !user || isValidated) return;] then
    [const timer = setTimeout(runValidation, 1000)]. *)
Definition effect (s : State) : State :=
  if negb (isAdmin s) || noUser (user s) || isValidated s then
    mkState (isAdmin s) (user s) (isValidated s) (stats s) None
      (timers s) (nextId s) (runs s) (started s) (fetches s) (published s)
      (toasts s)
  else
    mkState (isAdmin s) (user s) (isValidated s) (stats s)
      (Some (nextId s)) (timers s ++ [nextId s]) (S (nextId s))
      (runs s) (started s) (fetches s) (published s) (toasts s).

(** A dependency of [[isAdmin, user, isValidated]] changed: React runs
    the previous cleanup, then the effect again. *)
Definition rerun (s : State) : State := effect (cleanup s).

Definition sameUser (a b : option nat) : bool :=
  match a, b with
  | Some x, Some y => Nat.eqb x y
  | None, None => true
  | _, _ => false
  end.

(** [useAdminAuth] yields new values. *)
Definition onAuth (admin : bool) (u : option nat) (s : State) : State :=
  if Bool.eqb admin (isAdmin s) && sameUser u (user s) then s
  else
    rerun (mkState admin u (isValidated s) (stats s) (timer s) (timers s)
             (nextId s) (runs s) (started s) (fetches s) (published s)
             (toasts s)).

Fixpoint findRun (i : nat) (l : list (nat * Run)) : option Run :=
  match l with
  | [] => None
  | (j, r) :: l' => if Nat.eqb i j then Some r else findRun i l'
  end.

Definition dropRun (i : nat) (l : list (nat * Run)) : list (nat * Run) :=
  filter (fun p => negb (Nat.eqb (fst p) i)) l.

Definition withRuns (l : list (nat * Run)) (extraFetches : nat) (s : State) : State :=
  mkState (isAdmin s) (user s) (isValidated s) (stats s) (timer s) (timers s)
    (nextId s) l (started s) (fetches s + extraFetches)%nat (published s)
    (toasts s).

(** [runValidation] starts: it reads the day and issues the first
    [getDocs], on the bookings of that day. *)
Definition runValidation (today : string) (s : State) : State :=
  mkState (isAdmin s) (user s) (isValidated s) (stats s) (timer s) (timers s)
    (nextId s) (runs s ++ [(started s, AwaitBookings today)])
    (S (started s)) (S (fetches s)) (published s) (toasts s).

(** The [catch] block: [toast.error(`System validation failed: ${error.message}`)];
    the run ends there. *)
Definition onCatch (i : nat) (s : State) (error : JsError) : Completion State :=
  Normal
    (mkState (isAdmin s) (user s) (isValidated s) (stats s) (timer s)
       (timers s) (nextId s) (dropRun i (runs s)) (started s) (fetches s)
       (published s)
       (toasts s ++
          [ToastError ("System validation failed: " ++ interpolate (message error))])).

(** [setStats(newStats); setIsValidated(true); toast.success(...)].
    Setting the latch changes a dependency of the effect, which
    React then re-runs; setting it again changes nothing. *)
Definition publish (i : nat) (newStats : SystemStats) (s : State) : State :=
  let s1 :=
    mkState (isAdmin s) (user s) true newStats (timer s) (timers s)
      (nextId s) (dropRun i (runs s)) (started s) (fetches s)
      (S (published s))
      (toasts s ++
         [ToastSuccess (todaysBookings newStats) (pendingMessages newStats)
            (activeCustomers newStats) (revenueToday newStats)]) in
  if isValidated s then s1 else rerun s1.

(** The three segments of the [try] block, each from one [await] to
    the next suspension or to the end. *)
Definition afterBookings (i : nat) (today : string)
    (p : JsError + list Booking) (s : State) : Completion State :=
  match await p with
  | Throw e => Throw e
  | Normal all =>
      let bookings := Aggregate.queryByDate today all in
      let revenue := Aggregate.revenueOf bookings in
      Normal (withRuns (dropRun i (runs s) ++ [(i, AwaitConversations bookings revenue)])
                1 s)
  end.

Definition afterConversations (i : nat) (bookings : list Booking) (revenue : Z)
    (p : JsError + list Conversation) (s : State) : Completion State :=
  match await p with
  | Throw e => Throw e
  | Normal conversations =>
      let pendingMessages := Aggregate.pendingOf conversations in
      Normal (withRuns (dropRun i (runs s) ++
                          [(i, AwaitClients bookings revenue pendingMessages)])
                1 s)
  end.

Definition afterClients (i : nat) (bookings : list Booking) (revenue : Z)
    (pendingMessages : Z) (p : JsError + list Client) (stamp : Z) (s : State)
    : Completion State :=
  match await p with
  | Throw e => Throw e
  | Normal clients =>
      let activeCustomers := Aggregate.len clients in
      let newStats :=
        mkStats (Aggregate.len bookings) pendingMessages activeCustomers
          revenue stamp in
      Normal (publish i newStats s)
  end.

(** What the host can deliver to the first effect. *)
Inductive Event :=
| Auth (admin : bool) (u : option nat)
| TimerFires (id : nat) (today : string)
| BookingsFetched (i : nat) (p : JsError + list Booking)
| ConversationsFetched (i : nat) (p : JsError + list Conversation)
| ClientsFetched (i : nat) (p : JsError + list Client) (stamp : Z).

(** How a resumed [runValidation] ends its segment: the whole body is
    inside [try ... catch]. An event that matches no suspended run
    resumes nothing. *)
Definition resume (e : Event) (s : State) : Completion State :=
  match e with
  | BookingsFetched i p =>
      match findRun i (runs s) with
      | Some (AwaitBookings today) =>
          tryCatch (afterBookings i today p s) (onCatch i s)
      | _ => Normal s
      end
  | ConversationsFetched i p =>
      match findRun i (runs s) with
      | Some (AwaitConversations bookings revenue) =>
          tryCatch (afterConversations i bookings revenue p s) (onCatch i s)
      | _ => Normal s
      end
  | ClientsFetched i p stamp =>
      match findRun i (runs s) with
      | Some (AwaitClients bookings revenue pendingMessages) =>
          tryCatch (afterClients i bookings revenue pendingMessages p stamp s)
            (onCatch i s)
      | _ => Normal s
      end
  | _ => Normal s
  end.

(** The state a completion leaves; an error that escaped would leave
    the state as it was. *)
Definition settled (before : State) (c : Completion State) : State :=
  match c with
  | Normal s => s
  | Throw _ => before
  end.

(** One event, handled to completion. A timeout fires only while it
    is pending. *)
Definition step (e : Event) (s : State) : State :=
  match e with
  | Auth admin u => onAuth admin u s
  | TimerFires id today =>
      if existsb (Nat.eqb id) (timers s) then
        runValidation today
          (mkState (isAdmin s) (user s) (isValidated s) (stats s) (timer s)
             (filter (fun x => negb (Nat.eqb x id)) (timers s))
             (nextId s) (runs s) (started s) (fetches s) (published s)
             (toasts s))
      else s
  | _ => settled s (resume e s)
  end.

Definition run (es : list Event) (s : State) : State :=
  fold_left (fun s e => step e s) es s.

(** A session's first validation when nothing fails: the session
    becomes authorized for user [u], the settle timeout fires on day
    [today], and the three fetches resolve in turn. *)
Definition firstRun (u : nat) (today : string) (B : list Booking)
    (C : list Conversation) (K : list Client) (stamp : Z) : list Event :=
  [Auth true (Some u); TimerFires 0 today; BookingsFetched 0 (inr B);
   ConversationsFetched 0 (inr C); ClientsFetched 0 (inr K) stamp].

(** Every pending timeout is the one the current cleanup closes
    over, and none is pending once the latch is set. *)
Definition tidy (s : State) : Prop :=
  (timers s = [] \/ exists t, timers s = [t] /\ timer s = Some t)
  /\ (isValidated s = true -> timers s = []).


End Validation.

(* ===================================================================== *)
(** ** The STK-push route handler *)
(* ===================================================================== *)

Module Route.

(** A value produced by [JSON.parse]. *)
#[local] Set Warnings "-register-all".
Inductive Json :=
| JNull
| JBool (b : bool)
| JNum (n : Z)
| JStr (s : string)
| JArr (items : list Json)
| JObj (fields : list (string * Json)).

(** A JavaScript value read from a property: [None] is [undefined]. *)
Definition Value := option Json.

(** [!!v] *)
Definition truthy (v : Value) : bool :=
  match v with
  | None => false
  | Some JNull => false
  | Some (JBool b) => b
  | Some (JNum n) => negb (n =? 0)
  | Some (JStr s) => negb (String.eqb s "")
  | Some (JArr _) => true
  | Some (JObj _) => true
  end.

Fixpoint lookup (k : string) (fields : list (string * Json)) : Value :=
  match fields with
  | [] => None
  | (k', v) :: rest => if String.eqb k k' then Some v else lookup k rest
  end.

(** [body.k] for a non-null parsed body: only an object carries the
    three names; a string, number, boolean or array has no such
    property. *)
Definition prop (k : string) (body : Json) : Value :=
  match body with
  | JObj fields => lookup k fields
  | _ => None
  end.

Definition destructureError : JsError :=
  mkError
    (Some "Cannot destructure property 'phoneNumber' of '(intermediate value)' as it is null."%string).

(** [const { phoneNumber, amount, accountRef } = body]: destructuring
    [null] throws a [TypeError]. *)
Definition destructure (body : Json) : Completion (Value * Value * Value) :=
  match body with
  | JNull => Throw destructureError
  | _ => Normal (prop "phoneNumber" body, prop "amount" body, prop "accountRef" body)
  end.

Record Response := mkResponse {
  status : Z;
  payload : Json
}.

(** [NextResponse.json({ error: text }, { status })] *)
Definition errorResponse (text : string) (code : Z) : Response :=
  mkResponse code (JObj [("error"%string, JStr text)]).

(** [NextResponse.json(result)] *)
Definition okResponse (result : Json) : Response := mkResponse 200 result.

Definition missingFields : string :=
  "Missing required fields (phoneNumber, amount, accountRef)".

(** [error.message || "Internal Server Error"] *)
Definition messageOr (error : JsError) (fallback : string) : string :=
  match message error with
  | Some m => if String.eqb m "" then fallback else m
  | None => fallback
  end.

(** The arguments of one call of [initiateStkPush]. *)
Definition Call : Type := Value * Value * Value.

Section Handler.

(** [initiateStkPush] of [@/lib/mpesa]: it resolves with a result or
    rejects with an error. *)
Variable initiateStkPush : Value -> Value -> Value -> JsError + Json.

(** The [try] block; the second component lists the calls made. *)
Definition body (requestJson : JsError + Json) : Completion Response * list Call :=
  match await requestJson with
  | Throw e => (Throw e, [])
  | Normal parsed =>
      match destructure parsed with
      | Throw e => (Throw e, [])
      | Normal (phoneNumber, amount, accountRef) =>
          if negb (truthy phoneNumber) || negb (truthy amount)
             || negb (truthy accountRef)
          then (Normal (errorResponse missingFields 400), [])
          else
            match await (initiateStkPush phoneNumber amount accountRef) with
            | Throw e => (Throw e, [(phoneNumber, amount, accountRef)])
            | Normal result =>
                (Normal (okResponse result), [(phoneNumber, amount, accountRef)])
            end
      end
  end.

(** [export async function POST(request)]: [requestJson] is how
    [request.json()] settles. *)
Definition POST (requestJson : JsError + Json) : Completion Response * list Call :=
  let (c, calls) := body requestJson in
  (tryCatch c
     (fun error => Normal (errorResponse (messageOr error "Internal Server Error") 500)),
   calls).



End Handler.

End Route.

(* ===================================================================== *)
(** ** Concrete data *)
(* ===================================================================== *)

Module Scenario.

Definition day1 : string := "2024-01-01".
Definition day2 : string := "2024-01-02".

(** The bookings of the specification's concrete scenario. *)
Definition bookings : list Booking :=
  [ mkBooking "b1" (Some day1) (Some "completed"%string) (Some 500) None;
    mkBooking "b2" (Some day1) (Some "pending"%string) (Some 300) None;
    mkBooking "b3" (Some day2) (Some "completed"%string) None (Some 200) ].

(** A completed booking of day 1 whose [revenue] is present with
    value 0 and whose [price] is 200. *)
Definition zeroRevenue : Booking :=
  mkBooking "b0" (Some day1) (Some "completed"%string) (Some 0) (Some 200).

(** The conversations of the specification's concrete scenario. *)
Definition conversations : list Conversation :=
  [ mkConversation "c1" (Some 3);
    mkConversation "c2" (Some 0);
    mkConversation "c3" (Some 5) ].

(** Wall-clock readings: one second before the midnight that ends
    day 1, and two moments of day 2. *)
Definition lateDay1 : Listeners.Clock := Listeners.mkClock day1 86399000 86400000.
Definition earlyDay2 : Listeners.Clock := Listeners.mkClock day2 86400500 172800000.
Definition laterDay2 : Listeners.Clock := Listeners.mkClock day2 86460000 172800000.

Definition zero : SystemStats := mkStats 0 0 0 0 0.

End Scenario.

(* ===================================================================== *)
(** ** The two paths that move the day boundary *)
(* ===================================================================== *)

Module Race.

Import Listeners.

(** A closure at rest: one pending timeout, the one [midnightTimer]
    remembers, no re-fetch in flight, the bookings listener attached. *)
Definition atRest (s : State) : Prop :=
  exists t d,
    timers s = [(t, d)] /\ midnightTimer s = Some t /\ (t < nextId s)%nat
    /\ inflight s = 0%nat /\ subBookings s = true.

(** The timer path: the timeout that [midnightTimer] remembers fires,
    and later its re-fetch resolves. *)
Definition fire (c : Clock) (s : State) : State :=
  match midnightTimer s with
  | Some t => step (TimerFires t c) s
  | None => s
  end.

Definition resolve (c : Clock) (docs : list Booking) (s : State) : State :=
  step (RefetchResolves c docs) s.

(** The bookings-subscription path. *)
Definition snapshot (c : Clock) (docs : list Booking) (s : State) : State :=
  step (BookingsSnapshot c docs) s.

Definition refetched (s s' : State) : bool :=
  existsb (fun e => match e with GetDocs => true | _ => false end)
    (newEffects s s').

(** The path that ran between [s] and [s'] saw no change of day and
    did nothing about it: the boundary is the same, no timeout was
    armed and no re-fetch was issued for a recomputation. *)
Definition idle (s s' : State) : Prop :=
  currentDate s' = currentDate s
  /\ armedBetween s s' = 0%nat
  /\ refetched s s' = false.

(** The single-transition property as the specification states it,
    for both orders of the two paths. *)
Definition singleTransition : Prop :=
  forall (s : State) (D : string) (c1 c2 c3 : Clock) (docs : list Booking),
    atRest s -> currentDate s <> D ->
    today c1 = D -> today c2 = D -> today c3 = D ->
    (let s1 := snapshot c1 docs s in
     let s2 := resolve c3 docs (fire c2 s1) in
     currentDate s1 = D /\ idle s1 s2 /\ (List.length (timers s2) <= 1)%nat)
    /\
    (let s1 := resolve c2 docs (fire c1 s) in
     let s2 := snapshot c3 docs s1 in
     currentDate s1 = D /\ idle s1 s2 /\ (List.length (timers s2) <= 1)%nat).

End Race.

(* ===================================================================== *)
(** ** The timer chain, the session clock and [getToday] *)
(* ===================================================================== *)

Module Schedule.

Import Listeners.

(** The midnight chain is alive: a timeout is pending or a re-fetch
    is in flight, whose continuation will arm one. *)
Definition alive (s : State) : Prop :=
  (1 <= List.length (timers s) + inflight s)%nat.

(** Nothing is in flight and every pending timeout is the one
    [midnightTimer] remembers. *)
Definition quiescent (s : State) : Prop :=
  inflight s = 0%nat
  /\ forall t, In t (timers s) -> midnightTimer s = Some (fst t).

(** Nothing of the closure is left in the host. *)
Definition released (s : State) : Prop :=
  timers s = [] /\ inflight s = 0%nat
  /\ subBookings s = false /\ subConversations s = false
  /\ subClients s = false.

(** [getDocs(bookingsQuery)] of the midnight callback rejects. The
    promise only has the fulfilment continuation of [.then(...)], so no
    code of the hook runs: the request is simply over. *)
Definition refetchRejects (s : State) : State :=
  match inflight s with
  | O => s
  | S _ => exec settleRefetch s
  end.

Definition isTeardown (e : Event) : bool :=
  match e with
  | Teardown => true
  | _ => false
  end.

(** The wall-clock reading an event's handler takes. *)
Definition clockOf (e : Event) : option Clock :=
  match e with
  | TimerFires _ c => Some c
  | RefetchResolves c _ => Some c
  | BookingsSnapshot c _ => Some c
  | ConversationsSnapshot c _ => Some c
  | ClientsSnapshot c _ => Some c
  | Teardown => None
  end.

(** The events are delivered in the order of their clock readings,
    none before time [t]. *)
Fixpoint chronological (t : Z) (es : list Event) : Prop :=
  match es with
  | [] => True
  | e :: rest =>
      match clockOf e with
      | Some c => t <= now c /\ chronological (now c) rest
      | None => chronological t rest
      end
  end.

(** The time of the last clock reading of [es], [t] when there is
    none. *)
Fixpoint endTime (t : Z) (es : list Event) : Z :=
  match es with
  | [] => t
  | e :: rest =>
      match clockOf e with
      | Some c => endTime (now c) rest
      | None => endTime t rest
      end
  end.

(** The chain has stopped: no timeout is pending and no re-fetch is
    in flight. *)
Definition stopped (s : State) : Prop :=
  timers s = [] /\ inflight s = 0%nat.

(** Two states that differ at most in the time stamp of the metrics
    and in the trace. *)
Definition agree (s s' : State) : Prop :=
  metrics (stats s) = metrics (stats s')
  /\ currentDate s = currentDate s'
  /\ midnightTimer s = midnightTimer s'
  /\ timers s = timers s'
  /\ nextId s = nextId s'
  /\ inflight s = inflight s'
  /\ subBookings s = subBookings s'
  /\ subConversations s = subConversations s'
  /\ subClients s = subClients s'.

(** What the host can deliver to the closure, the rejection of a
    midnight re-fetch included. *)
Inductive HostEvent :=
| Delivers (e : Event)
| Rejects.

Definition hostStep (h : HostEvent) (s : State) : State :=
  match h with
  | Delivers e => step e s
  | Rejects => refetchRejects s
  end.

Definition hostRun (hs : list HostEvent) (s : State) : State :=
  fold_left (fun s h => hostStep h s) hs s.

(** An event that is neither the teardown nor the rejection of a
    re-fetch. *)
Definition sparesChain (h : HostEvent) : bool :=
  match h with
  | Delivers e => negb (isTeardown e)
  | Rejects => false
  end.

End Schedule.

Module Today.

(** [text.split("T")[0]]: the part of [text] before its first "T",
    all of [text] when it has none. *)
Fixpoint beforeT (text : string) : string :=
  match text with
  | EmptyString => EmptyString
  | String ch rest =>
      if Ascii.eqb ch "T" then EmptyString else String ch (beforeT rest)
  end.

(** [getToday] on the text [new Date().toISOString()] gave. *)
Definition getToday (iso : string) : string := beforeT iso.

Fixpoint hasT (text : string) : bool :=
  match text with
  | EmptyString => false
  | String ch rest => Ascii.eqb ch "T" || hasT rest
  end.

End Today.

Module Authorization.

Import Validation.

(** The event makes the session authorized: [useAdminAuth] yields an
    admin flag and a user object. *)
Definition grants (e : Event) : bool :=
  match e with
  | Auth admin u => admin && negb (noUser u)
  | _ => false
  end.

(** A validation is scheduled only while it is due: a pending
    timeout implies an admin flag, a user object and an unset latch. *)
Definition scheduledOnlyWhenDue (s : State) : Prop :=
  forall t, In t (timers s) ->
    isAdmin s = true /\ noUser (user s) = false /\ isValidated s = false.

(** Nothing has happened yet. *)
Definition untouched (stamp : Z) (s : State) : Prop :=
  timers s = [] /\ runs s = [] /\ started s = 0%nat /\ fetches s = 0%nat
  /\ published s = 0%nat /\ toasts s = [] /\ isValidated s = false
  /\ stats s = zeroStats stamp
  /\ (isAdmin s = false \/ noUser (user s) = true).

(** The three ways a run can fail, and the host events of each. *)
Definition failingAtBookings (u : nat) (today : string) (error : JsError)
  : list Event :=
  [Auth true (Some u); TimerFires 0 today; BookingsFetched 0 (inl error)].

Definition failingAtConversations (u : nat) (today : string)
    (B : list Booking) (error : JsError) : list Event :=
  [Auth true (Some u); TimerFires 0 today; BookingsFetched 0 (inr B);
   ConversationsFetched 0 (inl error)].

Definition failingAtClients (u : nat) (today : string) (B : list Booking)
    (C : list Conversation) (error : JsError) (stamp : Z) : list Event :=
  [Auth true (Some u); TimerFires 0 today; BookingsFetched 0 (inr B);
   ConversationsFetched 0 (inr C); ClientsFetched 0 (inl error) stamp].

End Authorization.

Module RouteOutcome.

Import Route.

(** The three ways the handler answers. *)
Inductive Outcome :=
| Accepted (phoneNumber amount accountRef : Value) (result : Json)
| Rejected
| Failed (text : string).

(** The response and the calls of [initiateStkPush] of each outcome. *)
Definition answer (o : Outcome) : Completion Response * list Call :=
  match o with
  | Accepted phoneNumber amount accountRef result =>
      (Normal (okResponse result), [(phoneNumber, amount, accountRef)])
  | Rejected => (Normal (errorResponse missingFields 400), [])
  | Failed text => (Normal (errorResponse text 500), [])
  end.

(** A parsed body that is neither [null] nor an object. *)
Definition isPrimitiveOrArray (body : Json) : bool :=
  match body with
  | JBool _ | JNum _ | JStr _ | JArr _ => true
  | JNull | JObj _ => false
  end.

(** A value that reaches the [catch] block: [null] or [undefined],
    or any other value, of which the block reads [message] (a thrown
    string or number has none). *)
Inductive Thrown :=
| ThrownNullish
| ThrownValue (e : JsError).

(** How an awaited promise settles. *)
Inductive Settled (A : Type) : Type :=
| Resolves (a : A)
| RejectsWith (t : Thrown).

Arguments Resolves {A} a.
Arguments RejectsWith {A} t.

(** How the promise of [POST] itself settles: with a response, or
    rejected with an error raised outside the [try] block. *)
Inductive Reply :=
| Answers (r : Response)
| Escapes (e : JsError).

(** [error.message] on [null] or [undefined], in the [catch] block. *)
Definition catchError : JsError :=
  mkError (Some "Cannot read properties of null (reading 'message')"%string).

(** [NextResponse.json(result)] on a result it cannot serialize. *)
Definition notSerializable : JsError :=
  mkError (Some "Value is not JSON serializable"%string).

Section FullHandler.

(** [initiateStkPush] of [@/lib/mpesa], with every way it can
    settle: a result that is a JSON value, a result that
    [NextResponse.json] cannot serialize such as [undefined] ([None]),
    or a rejection with any value. *)
Variable initiateStkPush : Value -> Value -> Value -> Settled (option Json).

(** The [try] block: the response it returns or the value it throws,
    and the calls made. *)
Definition tryBlock (requestJson : Settled Json) : (Thrown + Response) * list Call :=
  match requestJson with
  | RejectsWith t => (inl t, [])
  | Resolves parsed =>
      match destructure parsed with
      | Throw e => (inl (ThrownValue e), [])
      | Normal (phoneNumber, amount, accountRef) =>
          if negb (truthy phoneNumber) || negb (truthy amount)
             || negb (truthy accountRef)
          then (inr (errorResponse missingFields 400), [])
          else
            match initiateStkPush phoneNumber amount accountRef with
            | RejectsWith t => (inl t, [(phoneNumber, amount, accountRef)])
            | Resolves None =>
                (inl (ThrownValue notSerializable),
                 [(phoneNumber, amount, accountRef)])
            | Resolves (Some result) =>
                (inr (okResponse result), [(phoneNumber, amount, accountRef)])
            end
      end
  end.

(** The [catch] block reads [error.message]: on [null] or
    [undefined] that read throws, and nothing catches it. *)
Definition catchBlock (error : Thrown) : Reply :=
  match error with
  | ThrownNullish => Escapes catchError
  | ThrownValue e =>
      Answers (errorResponse (messageOr e "Internal Server Error") 500)
  end.

(** [export async function POST(request)] with every way its
    collaborators can settle. *)
Definition POSTfull (requestJson : Settled Json) : Reply * list Call :=
  let (c, calls) := tryBlock requestJson in
  (match c with
   | inr response => Answers response
   | inl error => catchBlock error
   end,
   calls).

(** A [null] or [undefined] is thrown inside the [try] block: by
    [request.json()], or by [initiateStkPush] once the three fields
    passed the check. *)
Definition throwsNullish (requestJson : Settled Json) : Prop :=
  requestJson = RejectsWith ThrownNullish
  \/ exists parsed,
       requestJson = Resolves parsed
       /\ truthy (prop "phoneNumber" parsed) = true
       /\ truthy (prop "amount" parsed) = true
       /\ truthy (prop "accountRef" parsed) = true
       /\ initiateStkPush (prop "phoneNumber" parsed) (prop "amount" parsed)
            (prop "accountRef" parsed) = RejectsWith ThrownNullish.

End FullHandler.

(** The collaborators of [Route.POST] among the full ones: a
    rejection carries an error object, a result is a JSON value. *)
Definition settle {A} (p : JsError + A) : Settled A :=
  match p with
  | inl e => RejectsWith (ThrownValue e)
  | inr a => Resolves a
  end.

Definition settleResult (p : JsError + Json) : Settled (option Json) :=
  match p with
  | inl e => RejectsWith (ThrownValue e)
  | inr result => Resolves (Some result)
  end.

Definition reply (c : Completion Response) : Reply :=
  match c with
  | Normal r => Answers r
  | Throw e => Escapes e
  end.

End RouteOutcome.

(* ===================================================================== *)
(** ** The hook: both effects on the same React state *)
(* ===================================================================== *)

Module Hook.

(** The first effect with the React state, the closure of the second
    effect that is current ([None] when its body returned early), and
    the closures that were torn down, which the host may still owe a
    timeout or the answer of a re-fetch. The [stats] field of a
    closure is only a buffer: a callback reads the React state when it
    runs. *)
Record State := mkState {
  session : Validation.State;
  closure : option Listeners.State;
  orphans : list Listeners.State
}.

Definition init (stamp : Z) : State :=
  mkState (Validation.init stamp) None [].

(** The React state [stats] as a callback of a closure finds it. *)
Definition withStats (st : SystemStats) (l : Listeners.State) : Listeners.State :=
  Listeners.mkState st (Listeners.currentDate l) (Listeners.midnightTimer l)
    (Listeners.timers l) (Listeners.nextId l) (Listeners.inflight l)
    (Listeners.subBookings l) (Listeners.subConversations l)
    (Listeners.subClients l) (Listeners.trace l).

(** The React state [stats] as a callback of a closure leaves it. *)
Definition setSessionStats (st : SystemStats) (v : Validation.State)
  : Validation.State :=
  Validation.mkState (Validation.isAdmin v) (Validation.user v)
    (Validation.isValidated v) st (Validation.timer v) (Validation.timers v)
    (Validation.nextId v) (Validation.runs v) (Validation.started v)
    (Validation.fetches v) (Validation.published v) (Validation.toasts v).

(** The body of the second effect:
    [if (!isValidated || !isAdmin) return;], else the set-up. *)
Definition listenersEffect (c : Listeners.Clock) (v : Validation.State)
  : option Listeners.State :=
  if negb (Validation.isValidated v) || negb (Validation.isAdmin v) then None
  else Some (Listeners.mounted c (Validation.stats v)).

(** A dependency of [[isValidated, isAdmin]] changed. *)
Definition depsChanged (v v' : Validation.State) : bool :=
  negb (Bool.eqb (Validation.isValidated v) (Validation.isValidated v')
        && Bool.eqb (Validation.isAdmin v) (Validation.isAdmin v')).

(** React runs the cleanup of the current closure, if there is one,
    then the body of the second effect. *)
Definition rerunListeners (c : Listeners.Clock) (h : State) : State :=
  mkState (session h) (listenersEffect c (session h))
    (match closure h with
     | Some l => orphans h ++ [Listeners.exec Listeners.cleanup l]
     | None => orphans h
     end).

(** What the host can deliver to the hook: an event of the first
    effect (with the clock the second effect reads if it runs), an
    event for the current closure, an event for a closure that was torn
    down. The teardown itself is React's doing, not the host's. *)
Inductive Event :=
| Session (e : Validation.Event) (c : Listeners.Clock)
| Feed (e : Listeners.Event)
| Late (i : nat) (e : Listeners.Event).

Fixpoint replace (i : nat) (l : Listeners.State) (ls : list Listeners.State)
  : list Listeners.State :=
  match ls, i with
  | [], _ => []
  | _ :: rest, O => l :: rest
  | x :: rest, S j => x :: replace j l rest
  end.

Definition step (ev : Event) (h : State) : State :=
  match ev with
  | Session e c =>
      let v' := Validation.step e (session h) in
      let h' := mkState v' (closure h) (orphans h) in
      if depsChanged (session h) v' then rerunListeners c h' else h'
  | Feed e =>
      match closure h with
      | Some l =>
          if Schedule.isTeardown e then h
          else
            let l' := Listeners.step e (withStats (Validation.stats (session h)) l) in
            mkState (setSessionStats (Listeners.stats l') (session h))
              (Some l') (orphans h)
      | None => h
      end
  | Late i e =>
      match nth_error (orphans h) i with
      | Some l =>
          if Schedule.isTeardown e then h
          else
            let l' := Listeners.step e (withStats (Validation.stats (session h)) l) in
            mkState (setSessionStats (Listeners.stats l') (session h))
              (closure h) (replace i l' (orphans h))
      | None => h
      end
  end.

Definition run (es : list Event) (h : State) : State :=
  fold_left (fun h e => step e h) es h.

Definition attached (h : State) : bool :=
  match closure h with
  | Some _ => true
  | None => false
  end.

(** The hook's return value: [{ stats, isValidated, lastUpdate }]. *)
Definition result (h : State) : SystemStats * bool * Z :=
  (Validation.stats (session h), Validation.isValidated (session h),
   lastUpdate (Validation.stats (session h))).

(** What holds of the hook after every event: the listeners are
    attached exactly when the latch is set and the admin flag is
    true; the first effect keeps its timeouts tidy; and until the latch
    is set the metrics are the initial zeros and no closure exists. *)
Definition consistent (stamp : Z) (h : State) : Prop :=
  attached h
  = Validation.isValidated (session h) && Validation.isAdmin (session h)
  /\ Validation.tidy (session h)
  /\ (Validation.isValidated (session h) = false ->
      Validation.stats (session h) = Validation.zeroStats stamp
      /\ closure h = None /\ orphans h = []).

End Hook.

(* ===================================================================== *)
(** * Properties *)
(* ===================================================================== *)

(** ** The reducers against the specification's formulas *)

Module AggregateFacts.

Import Aggregate.

Lemma isToday_onDay D b : isToday D b = Spec.onDay D b.
Proof. reflexivity. Qed.

Lemma isCompleted_completed b : isCompleted b = Spec.completed b.
Proof. reflexivity. Qed.

(** [revenue || price || 0] keeps a field only when it is not zero. *)
Lemma amount_nonzero b : amount b = Spec.nonzeroAmount b.
Proof.
  unfold amount, Spec.nonzeroAmount, Js.or, Js.truthy.
  destruct (revenue b) as [r|], (price b) as [p|]; simpl;
    repeat match goal with
           | |- context [?x =? 0] => destruct (Z.eqb_spec x 0); simpl
           end; congruence.
Qed.

Lemma fold_addRevenue_acc l : forall a,
  fold_left addRevenue l a = a + fold_left addRevenue l 0.
Proof.
  induction l as [|b l IH]; intros a; cbn [fold_left].
  - lia.
  - rewrite (IH (addRevenue a b)), (IH (addRevenue 0 b)). unfold addRevenue. lia.
Qed.

Lemma revenueOf_cons b l :
  revenueOf (b :: l) = (if isCompleted b then amount b else 0) + revenueOf l.
Proof.
  unfold revenueOf. simpl. destruct (isCompleted b); simpl.
  - rewrite fold_addRevenue_acc. unfold addRevenue. lia.
  - lia.
Qed.

(** Filtering by day, then by status, then reducing, is the sum
    over the completed bookings of the day. *)
Lemma revenueOf_todays B D :
  revenueOf (filter (isToday D) B) = Spec.sumCompleted Spec.nonzeroAmount B D.
Proof.
  induction B as [|b B IH]; simpl.
  - reflexivity.
  - change (Spec.onDay D b) with (isToday D b).
    change (Spec.completed b) with (isCompleted b).
    destruct (isToday D b); simpl.
    + rewrite revenueOf_cons, IH, amount_nonzero. reflexivity.
    + rewrite IH. reflexivity.
Qed.

(** Where no booking carries a zero [revenue] next to a [price] that
    counts, the two readings of "revenue, else price, else 0" agree. *)
Lemma sumCompleted_present B D :
  (forall b, In b B -> revenue b = Some 0 -> price b = None \/ price b = Some 0) ->
  Spec.sumCompleted Spec.nonzeroAmount B D = Spec.sumCompleted Spec.presentAmount B D.
Proof.
  induction B as [|b B IH]; intros H; simpl; [reflexivity|].
  rewrite IH by (intros b' Hb; apply H; right; exact Hb).
  destruct (Spec.onDay D b && Spec.completed b); [|reflexivity].
  f_equal. unfold Spec.nonzeroAmount, Spec.presentAmount.
  destruct (revenue b) as [r|] eqn:R; [|reflexivity].
  destruct (Z.eqb_spec r 0) as [->|]; [|reflexivity].
  destruct (H b (or_introl eq_refl) R) as [-> | ->]; reflexivity.
Qed.

Lemma len_todays B D : len (filter (isToday D) B) = Spec.countOnDay B D.
Proof.
  unfold len. induction B as [|b B IH]; simpl.
  - reflexivity.
  - change (Spec.onDay D b) with (isToday D b).
    destruct (isToday D b); cbn [List.length]; rewrite ?Nat2Z.inj_succ; lia.
Qed.

Lemma fold_addUnread_acc l : forall a,
  fold_left addUnread l a = a + fold_left addUnread l 0.
Proof.
  induction l as [|c l IH]; intros a; cbn [fold_left].
  - lia.
  - rewrite (IH (addUnread a c)), (IH (addUnread 0 c)). unfold addUnread. lia.
Qed.

Lemma pendingOf_sumUnread C : pendingOf C = Spec.sumUnread C.
Proof.
  unfold pendingOf. induction C as [|c C IH]; simpl.
  - reflexivity.
  - rewrite fold_addUnread_acc, IH. unfold addUnread, Js.or, Js.truthy.
    destruct (unreadCount c) as [n|]; simpl; [|lia].
    destruct (Z.eqb_spec n 0); simpl; lia.
Qed.

End AggregateFacts.

(** ** What each handler of the second effect does to the state *)

Module ListenerFacts.

Import Listeners.

Lemma eqb_today_false (D : string) (s : State) :
  currentDate s <> D -> negb (String.eqb D (currentDate s)) = true.
Proof.
  intros H. destruct (String.eqb_spec D (currentDate s)); [congruence | reflexivity].
Qed.

(** After its callback ran, the bookings listener has adopted the
    day it read from the clock. *)
Lemma onBookings_currentDate c docs s :
  currentDate (exec (onBookings c docs) s) = today c.
Proof.
  unfold exec, onBookings, bind, readCurrentDate. simpl.
  destruct (String.eqb_spec (today c) (currentDate s)) as [E|E]; simpl; congruence.
Qed.

Lemma onBookings_stats c docs s :
  stats (exec (onBookings c docs) s)
  = mergeBookings (Aggregate.listenerBookings (today c) docs)
      (Aggregate.listenerRevenue (today c) docs) (now c) (stats s).
Proof.
  unfold exec, onBookings, bind, readCurrentDate. simpl.
  destruct (String.eqb_spec (today c) (currentDate s)) as [E|E]; simpl;
    [rewrite <- E|]; reflexivity.
Qed.

Lemma onConversations_stats c docs s :
  stats (exec (onConversations c docs) s)
  = mergeConversations (Aggregate.pendingOf docs) (now c) (stats s).
Proof. reflexivity. Qed.

Lemma onClients_stats c docs s :
  stats (exec (onClients c docs) s)
  = mergeClients (Aggregate.len docs) (now c) (stats s).
Proof. reflexivity. Qed.

Lemma onMidnight_stats c s : stats (exec (onMidnight c) s) = stats s.
Proof. reflexivity. Qed.

Lemma onMidnight_currentDate c s : currentDate (exec (onMidnight c) s) = today c.
Proof. reflexivity. Qed.

Lemma onRefetched_stats c docs s :
  stats (exec (onRefetched c docs) s)
  = mergeBookings (Aggregate.midnightBookings (currentDate s) docs)
      (Aggregate.midnightRevenue (currentDate s) docs) (now c) (stats s).
Proof. reflexivity. Qed.

Lemma onRefetched_currentDate c docs s :
  currentDate (exec (onRefetched c docs) s) = currentDate s.
Proof. reflexivity. Qed.

Lemma skipn_length_app {A} (l d : list A) : skipn (List.length l) (l ++ d) = d.
Proof. induction l as [|x l IH]; simpl; [reflexivity | exact IH]. Qed.

(** The teardown detaches the three listeners and cancels the
    remembered timeout: a snapshot that arrives later reaches no
    callback, and that timeout does not fire. *)
Lemma late_snapshots_dropped s :
  let s' := step Teardown s in
  (forall c docs, step (BookingsSnapshot c docs) s' = s')
  /\ (forall c docs, step (ConversationsSnapshot c docs) s' = s')
  /\ (forall c docs, step (ClientsSnapshot c docs) s' = s').
Proof. repeat split. Qed.

Lemma dropTimer_not_pending id l :
  existsb (fun t => Nat.eqb (fst t) id) (dropTimer id l) = false.
Proof.
  unfold dropTimer. induction l as [|[i d] l IH]; simpl; [reflexivity|].
  destruct (Nat.eqb i id) eqn:E; simpl; [exact IH | rewrite E; exact IH].
Qed.

Lemma cancelled_timer_silent s t c :
  midnightTimer s = Some t ->
  let s' := step Teardown s in
  step (TimerFires t c) s' = s'.
Proof.
  intros H. cbv zeta. unfold step at 1.
  replace (isPending t (step Teardown s)) with false; [reflexivity|].
  unfold isPending. simpl. unfold readMidnightTimer, exec, cleanup, bind. simpl.
  rewrite H. simpl. symmetry. apply dropTimer_not_pending.
Qed.

(** The teardown leaves a re-fetch in flight as it is: when it
    resolves, its continuation runs as usual. *)
Lemma refetch_outlives_teardown s c docs n :
  inflight s = S n ->
  let s2 := step Teardown s in
  let s3 := step (RefetchResolves c docs) s2 in
  stats s3
  = mergeBookings (Aggregate.midnightBookings (currentDate s) docs)
      (Aggregate.midnightRevenue (currentDate s) docs) (now c) (stats s)
  /\ timers s3 = timers s2 ++ [(nextId s, getSecondsUntilMidnight c * 1000)]
  /\ midnightTimer s3 = Some (nextId s).
Proof.
  intros H. destruct s as [st cd mt tm nid inf sb sc scl tr].
  simpl in H. subst inf. repeat split.
Qed.

End ListenerFacts.

(** ** The first effect: what re-running it preserves *)

Module ValidationFacts.

Import Validation.

Lemma cleanup_fields s :
  isAdmin (cleanup s) = isAdmin s /\ user (cleanup s) = user s
  /\ isValidated (cleanup s) = isValidated s /\ stats (cleanup s) = stats s
  /\ nextId (cleanup s) = nextId s /\ runs (cleanup s) = runs s
  /\ started (cleanup s) = started s /\ fetches (cleanup s) = fetches s
  /\ published (cleanup s) = published s /\ toasts (cleanup s) = toasts s.
Proof. unfold cleanup. destruct (timer s); simpl; repeat split. Qed.

Lemma effect_fields s :
  isAdmin (effect s) = isAdmin s /\ user (effect s) = user s
  /\ isValidated (effect s) = isValidated s /\ stats (effect s) = stats s
  /\ runs (effect s) = runs s
  /\ started (effect s) = started s /\ fetches (effect s) = fetches s
  /\ published (effect s) = published s /\ toasts (effect s) = toasts s.
Proof.
  unfold effect.
  destruct (negb (isAdmin s) || noUser (user s) || isValidated s);
    simpl; repeat split.
Qed.

(** Re-running the effect touches the timeouts only. *)
Lemma rerun_fields s :
  isAdmin (rerun s) = isAdmin s /\ user (rerun s) = user s
  /\ isValidated (rerun s) = isValidated s /\ stats (rerun s) = stats s
  /\ runs (rerun s) = runs s
  /\ started (rerun s) = started s /\ fetches (rerun s) = fetches s
  /\ published (rerun s) = published s /\ toasts (rerun s) = toasts s.
Proof.
  unfold rerun.
  destruct (effect_fields (cleanup s)) as (a & b & c & d & e & f & g & h & i).
  destruct (cleanup_fields s) as (a' & b' & c' & d' & _ & e' & f' & g' & h' & i').
  repeat split; congruence.
Qed.

Lemma publish_stats i st s : stats (publish i st s) = st.
Proof.
  unfold publish. destruct (isValidated s); [reflexivity|].
  destruct (rerun_fields
              (mkState (isAdmin s) (user s) true st (timer s) (timers s)
                 (nextId s) (dropRun i (runs s)) (started s) (fetches s)
                 (S (published s))
                 (toasts s ++
                    [ToastSuccess (todaysBookings st) (pendingMessages st)
                       (activeCustomers st) (revenueToday st)])))
    as (_ & _ & _ & H & _).
  exact H.
Qed.

Lemma findRun_dropRun i l : findRun i (dropRun i l) = None.
Proof.
  unfold dropRun. induction l as [|[j r] l IH]; simpl; [reflexivity|].
  destruct (Nat.eqb j i) eqn:E; simpl; [exact IH|].
  rewrite Nat.eqb_sym, E. exact IH.
Qed.

(** What the first validation of a session publishes. *)
Lemma firstRun_publishes stamp0 u today B C K stamp :
  let s := run (firstRun u today B C K stamp) (init stamp0) in
  isValidated s = true
  /\ stats s
     = mkStats (Aggregate.validationBookings today B) (Aggregate.pendingOf C)
         (Aggregate.len K) (Aggregate.validationRevenue today B) stamp
  /\ toasts s
     = [ToastSuccess (Aggregate.validationBookings today B) (Aggregate.pendingOf C)
          (Aggregate.len K) (Aggregate.validationRevenue today B)]
  /\ timers s = [] /\ runs s = [].
Proof. cbv zeta. repeat split. Qed.

End ValidationFacts.

(** ** The metrics *)

Module MetricFacts.

Import Listeners.

(** The metrics each site leaves in the React state, in terms of the
    reducers. *)
Lemma published_by_site (B : list Booking) (C : list Conversation)
    (K : list Client) :
  (forall stamp0 u D stamp,
      Validation.stats
        (Validation.run (Validation.firstRun u D B C K stamp)
           (Validation.init stamp0))
      = mkStats (Aggregate.validationBookings D B) (Aggregate.pendingOf C)
          (Aggregate.len K) (Aggregate.validationRevenue D B) stamp)
  /\ (forall c s,
        stats (exec (onBookings c B) s)
        = mkStats (Aggregate.listenerBookings (today c) B)
            (pendingMessages (stats s)) (activeCustomers (stats s))
            (Aggregate.listenerRevenue (today c) B) (now c))
  /\ (forall c s,
        stats (exec (onRefetched c B) s)
        = mkStats (Aggregate.midnightBookings (currentDate s) B)
            (pendingMessages (stats s)) (activeCustomers (stats s))
            (Aggregate.midnightRevenue (currentDate s) B) (now c)).
Proof.
  split; [|split].
  - intros stamp0 u D stamp.
    apply (ValidationFacts.firstRun_publishes stamp0 u D B C K stamp).
  - intros c s. apply ListenerFacts.onBookings_stats.
  - intros c s. reflexivity.
Qed.

(** C1, as stated, fails: a completed booking of the day whose
    [revenue] is present with value 0 and whose [price] is 200
    contributes 200 at each of the three sites, where the stated
    formula gives 0. *)
Lemma revenue_zero_yields_price :
  Aggregate.validationRevenue Scenario.day1 [Scenario.zeroRevenue] = 200
  /\ Aggregate.listenerRevenue Scenario.day1 [Scenario.zeroRevenue] = 200
  /\ Aggregate.midnightRevenue Scenario.day1 [Scenario.zeroRevenue] = 200
  /\ revenueToday
       (stats (step (BookingsSnapshot Scenario.lateDay1 [Scenario.zeroRevenue])
                 (mounted Scenario.lateDay1 Scenario.zero))) = 200
  /\ revenueToday
       (Validation.stats
          (Validation.run
             (Validation.firstRun 1 Scenario.day1 [Scenario.zeroRevenue] [] [] 7)
             (Validation.init 0))) = 200
  /\ Spec.sumCompleted Spec.presentAmount [Scenario.zeroRevenue] Scenario.day1 = 0.
Proof. repeat split. Qed.

(** C1, amended: at the three computation sites (the one-shot
    validation, the bookings listener, the midnight continuation)
    revenueToday is the sum, over the bookings of day D whose status
    is "completed", of the booking's revenue when it is present and
    not zero, else its price when present, else 0; D is the day the
    validation and the listener read from the clock, and the
    closure's current date for the continuation. *)
Theorem revenue_sum_of_nonzero_fields (B : list Booking) (D : string) :
  Aggregate.validationRevenue D B = Spec.sumCompleted Spec.nonzeroAmount B D
  /\ Aggregate.listenerRevenue D B = Spec.sumCompleted Spec.nonzeroAmount B D
  /\ Aggregate.midnightRevenue D B = Spec.sumCompleted Spec.nonzeroAmount B D
  /\ (forall stamp0 u C K stamp,
        revenueToday
          (Validation.stats
             (Validation.run (Validation.firstRun u D B C K stamp)
                (Validation.init stamp0)))
        = Spec.sumCompleted Spec.nonzeroAmount B D)
  /\ (forall n m s,
        revenueToday (stats (exec (onBookings (mkClock D n m) B) s))
        = Spec.sumCompleted Spec.nonzeroAmount B D)
  /\ (forall c s,
        revenueToday (stats (exec (onRefetched c B) s))
        = Spec.sumCompleted Spec.nonzeroAmount B (currentDate s)).
Proof.
  assert (R : forall D', Aggregate.revenueOf (filter (Aggregate.isToday D') B)
                         = Spec.sumCompleted Spec.nonzeroAmount B D')
    by (intros D'; apply AggregateFacts.revenueOf_todays).
  split; [apply R|]. split; [apply R|]. split; [apply R|].
  split; [|split].
  - intros stamp0 u C K stamp.
    destruct (published_by_site B C K) as (V & _ & _). rewrite V. apply R.
  - intros n m s.
    destruct (published_by_site B [] []) as (_ & L & _). rewrite L. apply R.
  - intros c s.
    destruct (published_by_site B [] []) as (_ & _ & N). rewrite N. apply R.
Qed.

(** C2: at every site todaysBookings is the number of bookings of
    day D, whatever their status; and for the three bookings of the
    concrete scenario on "2024-01-01", todaysBookings = 2 and
    revenueToday = 500. *)
Theorem bookings_count_any_status (B : list Booking) (D : string) :
  Aggregate.validationBookings D B = Spec.countOnDay B D
  /\ Aggregate.listenerBookings D B = Spec.countOnDay B D
  /\ Aggregate.midnightBookings D B = Spec.countOnDay B D
  /\ (forall stamp0 u C K stamp,
        todaysBookings
          (Validation.stats
             (Validation.run (Validation.firstRun u D B C K stamp)
                (Validation.init stamp0)))
        = Spec.countOnDay B D)
  /\ (forall n m s,
        todaysBookings (stats (exec (onBookings (mkClock D n m) B) s))
        = Spec.countOnDay B D)
  /\ (forall c s,
        todaysBookings (stats (exec (onRefetched c B) s))
        = Spec.countOnDay B (currentDate s))
  /\ stats (step (BookingsSnapshot Scenario.lateDay1 Scenario.bookings)
              (mounted Scenario.lateDay1 Scenario.zero))
     = mkStats 2 0 0 500 86399000
  /\ Validation.stats
       (Validation.run
          (Validation.firstRun 1 Scenario.day1 Scenario.bookings [] [] 7)
          (Validation.init 0))
     = mkStats 2 0 0 500 7
  /\ Spec.countOnDay Scenario.bookings Scenario.day1 = 2.
Proof.
  assert (L : forall D', Aggregate.len (filter (Aggregate.isToday D') B)
                         = Spec.countOnDay B D')
    by (intros D'; apply AggregateFacts.len_todays).
  split; [apply L|]. split; [apply L|]. split; [apply L|].
  split; [|split; [|split; [|repeat split]]].
  - intros stamp0 u C K stamp.
    destruct (published_by_site B C K) as (V & _ & _). rewrite V. apply L.
  - intros n m s.
    destruct (published_by_site B [] []) as (_ & H & _). rewrite H. apply L.
  - intros c s.
    destruct (published_by_site B [] []) as (_ & _ & N). rewrite N. apply L.
Qed.

(** C8: pendingMessages is the sum of unreadCount over all
    conversations, a missing counter adding 0; the validation
    publishes that sum whatever the day, and the conversations
    listener whatever the closure's current date and the clock; for
    the counters 3, 0, 5 it is 8. *)
Theorem pending_sum_all_conversations (C : list Conversation) :
  Aggregate.pendingOf C = Spec.sumUnread C
  /\ (forall stamp0 u D B K stamp,
        pendingMessages
          (Validation.stats
             (Validation.run (Validation.firstRun u D B C K stamp)
                (Validation.init stamp0)))
        = Spec.sumUnread C)
  /\ (forall c s,
        pendingMessages (stats (exec (onConversations c C) s)) = Spec.sumUnread C)
  /\ (forall c s,
        pendingMessages (stats (exec (onConversations c Scenario.conversations) s)) = 8)
  /\ (forall stamp0 u D B K stamp,
        pendingMessages
          (Validation.stats
             (Validation.run
                (Validation.firstRun u D B Scenario.conversations K stamp)
                (Validation.init stamp0)))
        = 8).
Proof.
  split; [apply AggregateFacts.pendingOf_sumUnread|].
  split; [|split; [|split]].
  - intros stamp0 u D B K stamp.
    destruct (published_by_site B C K) as (V & _ & _). rewrite V.
    apply AggregateFacts.pendingOf_sumUnread.
  - intros c s. simpl. apply AggregateFacts.pendingOf_sumUnread.
  - intros c s. reflexivity.
  - intros stamp0 u D B K stamp.
    destruct (published_by_site B Scenario.conversations K) as (V & _ & _).
    rewrite V. reflexivity.
Qed.

End MetricFacts.

(** ** Merges and their order *)

Module MergeFacts.

Import Listeners.

(** C6: each merge writes the fields its handler computed and the
    time stamp, and copies every other field: a bookings event leaves
    pendingMessages and activeCustomers alone, a conversations event
    leaves todaysBookings, revenueToday and activeCustomers alone, a
    clients event leaves todaysBookings, revenueToday and
    pendingMessages alone; so does the midnight continuation for the
    two fields it does not own. *)
Theorem merges_keep_foreign_fields (s : State) (c : Clock) :
  (forall docs,
      let s' := step (BookingsSnapshot c docs) s in
      pendingMessages (stats s') = pendingMessages (stats s)
      /\ activeCustomers (stats s') = activeCustomers (stats s))
  /\ (forall docs,
      let s' := step (ConversationsSnapshot c docs) s in
      todaysBookings (stats s') = todaysBookings (stats s)
      /\ revenueToday (stats s') = revenueToday (stats s)
      /\ activeCustomers (stats s') = activeCustomers (stats s))
  /\ (forall docs,
      let s' := step (ClientsSnapshot c docs) s in
      todaysBookings (stats s') = todaysBookings (stats s)
      /\ revenueToday (stats s') = revenueToday (stats s)
      /\ pendingMessages (stats s') = pendingMessages (stats s))
  /\ (forall docs,
      stats (exec (onBookings c docs) s)
      = mkStats (Aggregate.listenerBookings (today c) docs)
          (pendingMessages (stats s)) (activeCustomers (stats s))
          (Aggregate.listenerRevenue (today c) docs) (now c))
  /\ (forall docs,
      stats (exec (onConversations c docs) s)
      = mkStats (todaysBookings (stats s)) (Aggregate.pendingOf docs)
          (activeCustomers (stats s)) (revenueToday (stats s)) (now c))
  /\ (forall docs,
      stats (exec (onClients c docs) s)
      = mkStats (todaysBookings (stats s)) (pendingMessages (stats s))
          (Aggregate.len docs) (revenueToday (stats s)) (now c))
  /\ (forall docs,
      stats (exec (onRefetched c docs) s)
      = mkStats (Aggregate.midnightBookings (currentDate s) docs)
          (pendingMessages (stats s)) (activeCustomers (stats s))
          (Aggregate.midnightRevenue (currentDate s) docs) (now c)).
Proof.
  split; [|split; [|split; [|split; [|split; [|split]]]]]; intros docs.
  - cbv zeta. unfold step. destruct (subBookings s); [|split; reflexivity].
    rewrite ListenerFacts.onBookings_stats. split; reflexivity.
  - cbv zeta. unfold step. destruct (subConversations s); repeat split.
  - cbv zeta. unfold step. destruct (subClients s); repeat split.
  - apply ListenerFacts.onBookings_stats.
  - reflexivity.
  - reflexivity.
  - reflexivity.
Qed.

(** C9: for a fixed booking set and a fixed wall-clock day, the
    bookings callback and the midnight fire (timer callback, then the
    continuation of its re-fetch) leave the same metrics in either
    order, and also when the bookings callback runs between the fire
    and its continuation; the time stamp is left out. *)
Theorem bookings_and_midnight_commute
    (s : State) (B : list Booking) (D : string) (n1 m1 n2 m2 n3 m3 : Z) :
  let c1 := mkClock D n1 m1 in
  let c2 := mkClock D n2 m2 in
  let c3 := mkClock D n3 m3 in
  let bookingsFirst :=
    exec (onRefetched c3 B) (exec (onMidnight c2) (exec (onBookings c1 B) s)) in
  let midnightFirst :=
    exec (onBookings c3 B) (exec (onRefetched c2 B) (exec (onMidnight c1) s)) in
  let interleaved :=
    exec (onRefetched c3 B) (exec (onBookings c2 B) (exec (onMidnight c1) s)) in
  metrics (stats bookingsFirst) = metrics (stats midnightFirst)
  /\ metrics (stats interleaved) = metrics (stats midnightFirst)
  /\ metrics (stats midnightFirst)
     = (Spec.countOnDay B D, pendingMessages (stats s),
        activeCustomers (stats s), Spec.sumCompleted Spec.nonzeroAmount B D).
Proof.
  cbv zeta.
  assert (Hb : forall c docs s0,
             metrics (stats (exec (onBookings c docs) s0))
             = (Aggregate.listenerBookings (today c) docs,
                pendingMessages (stats s0), activeCustomers (stats s0),
                Aggregate.listenerRevenue (today c) docs)).
  { intros c docs s0. rewrite ListenerFacts.onBookings_stats. reflexivity. }
  assert (Hr : forall c docs s0,
             metrics (stats (exec (onRefetched c docs) s0))
             = (Aggregate.midnightBookings (currentDate s0) docs,
                pendingMessages (stats s0), activeCustomers (stats s0),
                Aggregate.midnightRevenue (currentDate s0) docs)).
  { intros c docs s0. reflexivity. }
  rewrite !Hb, !Hr.
  rewrite !ListenerFacts.onMidnight_stats, !ListenerFacts.onMidnight_currentDate.
  rewrite !ListenerFacts.onBookings_stats, !ListenerFacts.onBookings_currentDate.
  rewrite !ListenerFacts.onRefetched_stats. simpl.
  unfold Aggregate.midnightBookings, Aggregate.listenerBookings,
    Aggregate.midnightRevenue, Aggregate.listenerRevenue, Aggregate.todaysOf.
  rewrite AggregateFacts.len_todays, AggregateFacts.revenueOf_todays.
  repeat split.
Qed.

End MergeFacts.

(** ** The race for the day boundary, and teardown *)

Module RaceFacts.

Import Listeners Race.

(** Unfold the handlers on a state given field by field. *)
Ltac run_handlers :=
  cbv zeta;
  unfold snapshot, fire, resolve, step, idle, refetched, armedBetween,
    newEffects, isPending, exec, onBookings, onMidnight, onRefetched, bind,
    readCurrentDate;
  simpl.

(** Read off the effects appended after a known prefix of the trace. *)
Ltac read_new_effects :=
  repeat match goal with
    | |- context [skipn (Datatypes.length ?l) _] =>
        let pre := fresh "pre" in
        remember l as pre;
        rewrite <- ?app_assoc;
        rewrite ?ListenerFacts.skipn_length_app
    end.

Lemma mounted_atRest c st : atRest (mounted c st).
Proof.
  exists 0%nat, (getSecondsUntilMidnight c * 1000).
  repeat split. apply Nat.lt_0_1.
Qed.

(** C5, as stated, fails when the timer path comes second: after the
    bookings callback moved the boundary to day 2 and re-armed, the
    timeout it armed fires while the clock still says day 2; the
    timer callback re-fetches, recomputes and arms another timeout. *)
Lemma timer_path_second_rearms :
  let s := mounted Scenario.lateDay1 Scenario.zero in
  let s1 := snapshot Scenario.earlyDay2 Scenario.bookings s in
  let s2 := resolve Scenario.laterDay2 Scenario.bookings
              (fire Scenario.laterDay2 s1) in
  currentDate s = Scenario.day1
  /\ currentDate s1 = Scenario.day2
  /\ currentDate s2 = Scenario.day2
  /\ armedBetween s1 s2 = 1%nat
  /\ refetched s1 s2 = true
  /\ newEffects s1 s2 = [GetDocs; SetStats; SetTimeout 2 86340000]
  /\ ~ singleTransition.
Proof.
  cbv zeta. repeat split.
  intros H.
  destruct (H (mounted Scenario.lateDay1 Scenario.zero) Scenario.day2
              Scenario.earlyDay2 Scenario.laterDay2 Scenario.laterDay2
              Scenario.bookings (mounted_atRest _ _))
    as [(_ & (_ & Harm & _) & _) _]; try reflexivity.
  - discriminate.
  - vm_compute in Harm. discriminate.
Qed.

(** C5, amended: from a closure at rest, when both paths read the
    same new day D, the boundary takes the value D at the first path
    and keeps it at the second. If the bookings callback is first, it
    cancels the pending timeout and arms exactly one; when that
    timeout later fires with the clock still on D, the timer callback
    has no change check: it re-fetches, recomputes and arms one
    timeout in place of the one that fired. If the timer callback is
    first, the bookings callback that follows (after the continuation
    or between fire and continuation) sees no change, cancels and
    arms nothing and only does its per-snapshot recomputation. In
    each order at most one timeout is pending at every point. *)
Theorem day_boundary_moves_once
    (s : State) (D : string) (c1 c2 c3 : Clock) (docs : list Booking) :
  atRest s -> currentDate s <> D ->
  today c1 = D -> today c2 = D -> today c3 = D ->
  (let s1 := snapshot c1 docs s in
   let f := fire c2 s1 in
   let s2 := resolve c3 docs f in
   currentDate s1 = D
   /\ armedBetween s s1 = 1%nat
   /\ (forall t, midnightTimer s = Some t -> isPending t s1 = false)
   /\ List.length (timers s1) = 1%nat
   /\ currentDate f = D
   /\ timers f = []
   /\ currentDate s2 = D
   /\ armedBetween s1 s2 = 1%nat
   /\ refetched s1 s2 = true
   /\ List.length (timers s2) = 1%nat)
  /\
  (let f := fire c1 s in
   let s1 := resolve c2 docs f in
   let s2 := snapshot c3 docs s1 in
   currentDate f = D
   /\ timers f = []
   /\ currentDate s1 = D
   /\ List.length (timers s1) = 1%nat
   /\ idle s1 s2
   /\ newEffects s1 s2 = [SetStats]
   /\ timers s2 = timers s1)
  /\
  (let f := fire c1 s in
   let s1 := snapshot c2 docs f in
   let s2 := resolve c3 docs s1 in
   currentDate f = D
   /\ idle f s1
   /\ newEffects f s1 = [SetStats]
   /\ timers s1 = []
   /\ currentDate s2 = D
   /\ armedBetween s1 s2 = 1%nat
   /\ List.length (timers s2) = 1%nat).
Proof.
  intros (t & d & Ht & Hm & Hlt & Hi & Hsb) HD E1 E2 E3.
  destruct s as [st cd mt tm nid inf sb sc scl tr].
  destruct c1 as [D1 n1 m1], c2 as [D2 n2 m2], c3 as [D3 n3 m3].
  simpl in *. subst tm mt inf sb D1 D2 D3.
  assert (Hne : Nat.eqb nid t = false)
    by (apply Nat.eqb_neq; intros ->; exact (Nat.lt_irrefl _ Hlt)).
  split; [|split]; run_handlers;
    (destruct (String.eqb_spec D cd) as [E|E]; [congruence|]); simpl;
    rewrite ?Nat.eqb_refl; simpl; rewrite ?String.eqb_refl; simpl;
    rewrite ?Nat.eqb_refl; simpl;
    read_new_effects;
    repeat split;
    try reflexivity;
    try (change (S nid - nid = 1)%nat; lia);
    try apply Nat.sub_diag;
    try (intros ? [= <-]; rewrite Hne; reflexivity).
Qed.

Lemma day_boundary_moves_once_witness :
  let s := mounted Scenario.lateDay1 Scenario.zero in
  atRest s /\ currentDate s <> Scenario.day2
  /\ (let s1 := snapshot Scenario.earlyDay2 Scenario.bookings s in
      let f := fire Scenario.laterDay2 s1 in
      let s2 := resolve Scenario.laterDay2 Scenario.bookings f in
      currentDate s1 = Scenario.day2
      /\ armedBetween s s1 = 1%nat
      /\ (forall t, midnightTimer s = Some t -> isPending t s1 = false)
      /\ List.length (timers s1) = 1%nat
      /\ currentDate f = Scenario.day2
      /\ timers f = []
      /\ currentDate s2 = Scenario.day2
      /\ armedBetween s1 s2 = 1%nat
      /\ refetched s1 s2 = true
      /\ List.length (timers s2) = 1%nat).
Proof.
  cbv zeta.
  split; [apply mounted_atRest|].
  split; [discriminate|].
  apply (day_boundary_moves_once
           (mounted Scenario.lateDay1 Scenario.zero) Scenario.day2
           Scenario.earlyDay2 Scenario.laterDay2 Scenario.laterDay2
           Scenario.bookings);
    [apply mounted_atRest | discriminate | reflexivity | reflexivity | reflexivity].
Defined.

(** C4, at the failing input: the midnight timeout fires and issues
    its re-fetch, the teardown runs (it cancels the remembered
    timeout and calls each of the three cancellation handles once),
    then the re-fetch resolves: its continuation still replaces the
    metrics and arms a new timeout, which nothing will cancel. *)
Theorem refetch_in_flight_survives_teardown :
  let s0 := mounted Scenario.lateDay1 Scenario.zero in
  let s1 := step (TimerFires 0 Scenario.earlyDay2) s0 in
  let s2 := step Teardown s1 in
  let s3 := step (RefetchResolves Scenario.laterDay2 Scenario.bookings) s2 in
  inflight s1 = 1%nat
  /\ newEffects s1 s2
     = [ClearTimeout (Some 0%nat); Unsubscribe Bookings;
        Unsubscribe Conversations; Unsubscribe Clients]
  /\ timers s2 = []
  /\ stats s2 = Scenario.zero
  /\ stats s3 = mkStats 1 0 0 200 86460000
  /\ stats s3 <> stats s2
  /\ newEffects s2 s3 = [SetStats; SetTimeout 1 86340000]
  /\ timers s3 = [(1%nat, 86340000)]
  /\ isPending 1 s3 = true.
Proof.
  cbv zeta. repeat split. discriminate.
Qed.

End RaceFacts.

(** ** The latch and the failure path of the validation *)

Module LatchFacts.

Import Validation.

Lemma cleanup_clears s :
  (timers s = [] \/ exists t, timers s = [t] /\ timer s = Some t) ->
  timers (cleanup s) = [] /\ timer (cleanup s) = None.
Proof.
  unfold cleanup. intros [H | (t & Ht & Hc)].
  - destruct (timer s) eqn:E; simpl; rewrite ?H, ?E; split; reflexivity.
  - rewrite Hc. simpl. rewrite Ht. simpl. rewrite Nat.eqb_refl. split; reflexivity.
Qed.

Lemma rerun_tidy s :
  (timers s = [] \/ exists t, timers s = [t] /\ timer s = Some t) ->
  tidy (rerun s).
Proof.
  intros H. destruct (cleanup_clears s H) as [Ht Hc].
  unfold rerun, effect, tidy.
  destruct (negb (isAdmin (cleanup s)) || noUser (user (cleanup s))
            || isValidated (cleanup s)) eqn:G; simpl.
  - split; [left; exact Ht | intros _; exact Ht].
  - rewrite Ht. simpl. split.
    + right. exists (nextId (cleanup s)). split; reflexivity.
    + intros V. rewrite V in G. rewrite orb_true_r in G. discriminate.
Qed.

Lemma existsb_single id t : existsb (Nat.eqb id) [t] = true -> id = t.
Proof.
  simpl. rewrite orb_false_r. apply Nat.eqb_eq.
Qed.

Lemma step_tidy e s : tidy s -> tidy (step e s).
Proof.
  intros [H1 H2]. destruct e as [admin u | id today | i p | i p | i p stamp].
  - simpl. unfold onAuth.
    destruct (Bool.eqb admin (isAdmin s) && sameUser u (user s)).
    + split; assumption.
    + apply rerun_tidy. exact H1.
  - simpl. destruct (existsb (Nat.eqb id) (timers s)) eqn:E; [|split; assumption].
    destruct H1 as [H1 | (t & Ht & Hc)].
    + rewrite H1 in E. discriminate.
    + rewrite Ht in E. apply existsb_single in E. subst id.
      unfold runValidation, tidy. simpl. rewrite Ht. simpl. rewrite Nat.eqb_refl.
      simpl. split; [left; reflexivity | reflexivity].
  - simpl. destruct (findRun i (runs s)) as [[today | b r | b r pm]|];
      try (split; assumption).
    destruct p as [err | all]; simpl; split; assumption.
  - simpl. destruct (findRun i (runs s)) as [[today | b r | b r pm]|];
      try (split; assumption).
    destruct p as [err | all]; simpl; split; assumption.
  - simpl. destruct (findRun i (runs s)) as [[today | b r | b r pm]|];
      try (split; assumption).
    destruct p as [err | all]; simpl; [split; assumption|].
    unfold publish. destruct (isValidated s) eqn:V.
    + unfold tidy. simpl. split; [exact H1 | intros _; exact (H2 eq_refl)].
    + apply rerun_tidy. simpl. exact H1.
Qed.

Lemma run_tidy es : forall s, tidy s -> tidy (run es s).
Proof.
  unfold run. induction es as [|e es IH]; intros s H; simpl.
  - exact H.
  - apply IH. apply step_tidy. exact H.
Qed.

Lemma init_tidy stamp : tidy (init stamp).
Proof. split; [left; reflexivity | reflexivity]. Qed.

Lemma rerun_latched s :
  isValidated s = true -> timers s = [] -> timers (rerun s) = [].
Proof.
  intros V T.
  assert (Hc : timers (cleanup s) = []).
  { unfold cleanup. destruct (timer s); simpl; rewrite ?T; reflexivity. }
  unfold rerun, effect.
  destruct (ValidationFacts.cleanup_fields s) as (_ & _ & Hv & _).
  rewrite Hv, V, orb_true_r. simpl. exact Hc.
Qed.

(** With the latch set and no timeout pending, a step changes
    neither fact and starts no run. *)
Lemma step_latched e s :
  isValidated s = true -> timers s = [] ->
  isValidated (step e s) = true /\ timers (step e s) = []
  /\ started (step e s) = started s.
Proof.
  intros V T. destruct e as [admin u | id today | i p | i p | i p stamp].
  - simpl. unfold onAuth.
    destruct (Bool.eqb admin (isAdmin s) && sameUser u (user s));
      [repeat split; assumption|].
    set (s0 := mkState admin u (isValidated s) (stats s) (timer s) (timers s)
                 (nextId s) (runs s) (started s) (fetches s) (published s)
                 (toasts s)).
    destruct (ValidationFacts.rerun_fields s0) as (_ & _ & Hv & _ & _ & Hs & _).
    assert (Ht : timers (rerun s0) = []) by (apply rerun_latched; assumption).
    rewrite Hv, Hs, Ht. simpl. repeat split. exact V.
  - simpl. rewrite T. simpl. repeat split; assumption.
  - simpl. destruct (findRun i (runs s)) as [[today | b r | b r pm]|];
      try (repeat split; assumption).
    destruct p as [err | all]; simpl; repeat split; assumption.
  - simpl. destruct (findRun i (runs s)) as [[today | b r | b r pm]|];
      try (repeat split; assumption).
    destruct p as [err | all]; simpl; repeat split; assumption.
  - simpl. destruct (findRun i (runs s)) as [[today | b r | b r pm]|];
      try (repeat split; assumption).
    destruct p as [err | all]; simpl; [repeat split; assumption|].
    unfold publish. rewrite V. simpl. repeat split. exact T.
Qed.

(** If moreover no run is suspended, nothing is fetched or
    published any more. *)
Lemma step_latched_quiet e s :
  isValidated s = true -> timers s = [] -> runs s = [] ->
  runs (step e s) = [] /\ fetches (step e s) = fetches s
  /\ published (step e s) = published s /\ stats (step e s) = stats s.
Proof.
  intros V T R. destruct e as [admin u | id today | i p | i p | i p stamp].
  - simpl. unfold onAuth.
    destruct (Bool.eqb admin (isAdmin s) && sameUser u (user s));
      [repeat split; assumption|].
    set (s0 := mkState admin u (isValidated s) (stats s) (timer s) (timers s)
                 (nextId s) (runs s) (started s) (fetches s) (published s)
                 (toasts s)).
    destruct (ValidationFacts.rerun_fields s0)
      as (_ & _ & _ & Hst & Hr & _ & Hf & Hp & _).
    rewrite Hst, Hr, Hf, Hp. simpl. repeat split. exact R.
  - simpl. rewrite T. simpl. repeat split; assumption.
  - simpl. rewrite R. simpl. repeat split; assumption.
  - simpl. rewrite R. simpl. repeat split; assumption.
  - simpl. rewrite R. simpl. repeat split; assumption.
Qed.

(** Until the latch is set nothing was published: the metrics are
    the initial zeros. *)
Lemma step_unpublished stamp e s :
  (isValidated s = false -> stats s = zeroStats stamp) ->
  isValidated (step e s) = false -> stats (step e s) = zeroStats stamp.
Proof.
  intros H. destruct e as [admin u | id today | i p | i p | i p st].
  - simpl. unfold onAuth.
    destruct (Bool.eqb admin (isAdmin s) && sameUser u (user s)); [exact H|].
    set (s0 := mkState admin u (isValidated s) (stats s) (timer s) (timers s)
                 (nextId s) (runs s) (started s) (fetches s) (published s)
                 (toasts s)).
    destruct (ValidationFacts.rerun_fields s0) as (_ & _ & Hv & Hst & _).
    rewrite Hv, Hst. exact H.
  - simpl. destruct (existsb (Nat.eqb id) (timers s)); exact H.
  - simpl. destruct (findRun i (runs s)) as [[today | b r | b r pm]|];
      try exact H.
    destruct p as [err | all]; simpl; exact H.
  - simpl. destruct (findRun i (runs s)) as [[today | b r | b r pm]|];
      try exact H.
    destruct p as [err | all]; simpl; exact H.
  - simpl. destruct (findRun i (runs s)) as [[today | b r | b r pm]|];
      try exact H.
    destruct p as [err | all]; simpl; [exact H|].
    unfold publish. intros V. exfalso.
    destruct (isValidated s); [simpl in V; discriminate|].
    match type of V with
    | isValidated (rerun ?x) = false =>
        destruct (ValidationFacts.rerun_fields x) as (_ & _ & Hv & _);
        rewrite Hv in V
    end.
    simpl in V. discriminate.
Qed.



Lemma run_latched es : forall s,
  isValidated s = true -> timers s = [] ->
  isValidated (run es s) = true /\ timers (run es s) = []
  /\ started (run es s) = started s.
Proof.
  unfold run. induction es as [|e es IH]; intros s V T; simpl.
  - repeat split; assumption.
  - destruct (step_latched e s V T) as (V' & T' & S').
    destruct (IH (step e s) V' T') as (V'' & T'' & S'').
    repeat split; try assumption. congruence.
Qed.

Lemma run_latched_quiet es : forall s,
  isValidated s = true -> timers s = [] -> runs s = [] ->
  fetches (run es s) = fetches s /\ published (run es s) = published s
  /\ stats (run es s) = stats s.
Proof.
  unfold run. induction es as [|e es IH]; intros s V T R; simpl.
  - repeat split.
  - destruct (step_latched e s V T) as (V' & T' & _).
    destruct (step_latched_quiet e s V T R) as (R' & F' & P' & S').
    destruct (IH (step e s) V' T' R') as (F'' & P'' & S'').
    repeat split; congruence.
Qed.

(** X26: what the latch does guarantee. Once it is set no event
    unsets it; no validation timeout is pending and no re-trigger of
    the authorization signal schedules one, so no validation run
    starts any more, whatever events follow; and if no earlier run is
    still suspended at that point, nothing is fetched or published
    again. *)
Theorem latch_is_one_way (stamp : Z) (before after : list Event) :
  let s := run before (init stamp) in
  isValidated s = true ->
  let s' := run after s in
  isValidated s' = true
  /\ timers s' = []
  /\ started s' = started s
  /\ (runs s = [] ->
      fetches s' = fetches s /\ published s' = published s
      /\ stats s' = stats s).
Proof.
  cbv zeta. intros V.
  destruct (run_tidy before (init stamp) (init_tidy stamp)) as [_ NoTimer].
  specialize (NoTimer V).
  destruct (run_latched after _ V NoTimer) as (V' & T' & S').
  split; [exact V'|]. split; [exact T'|]. split; [exact S'|].
  intros NoRun. exact (run_latched_quiet after _ V NoTimer NoRun).
Qed.

Lemma latch_is_one_way_witness :
  let before :=
    [Auth true (Some 1%nat); TimerFires 0 Scenario.day1;
     BookingsFetched 0 (inr Scenario.bookings);
     ConversationsFetched 0 (inr Scenario.conversations);
     ClientsFetched 0 (inr [mkClient "k1"; mkClient "k2"]) 7] in
  let after :=
    [Auth true (Some 2%nat); TimerFires 1 Scenario.day1;
     Auth false None; Auth true (Some 1%nat); TimerFires 2 Scenario.day2;
     BookingsFetched 1 (inr Scenario.bookings)] in
  let s := run before (init 0) in
  let s' := run after s in
  isValidated s = true
  /\ stats s = mkStats 2 8 2 500 7
  /\ isValidated s' = true
  /\ timers s' = []
  /\ started s' = started s
  /\ (runs s = [] ->
      fetches s' = fetches s /\ published s' = published s
      /\ stats s' = stats s).
Proof.
  cbv zeta.
  split; [reflexivity|].
  split; [reflexivity|].
  apply (latch_is_one_way 0
           [Auth true (Some 1%nat); TimerFires 0 Scenario.day1;
            BookingsFetched 0 (inr Scenario.bookings);
            ConversationsFetched 0 (inr Scenario.conversations);
            ClientsFetched 0 (inr [mkClient "k1"; mkClient "k2"]) 7]
           [Auth true (Some 2%nat); TimerFires 1 Scenario.day1;
            Auth false None; Auth true (Some 1%nat); TimerFires 2 Scenario.day2;
            BookingsFetched 1 (inr Scenario.bookings)]).
  reflexivity.
Defined.

(** C3, at the failing input: the authorization signal re-fires
    twice while the first run awaits its fetches, each settle timeout
    firing before that run ends, so three runs are suspended. The
    first one succeeds and sets the latch; no run starts after that,
    but the two suspended ones go on: they issue four more fetches
    and publish twice more, each overwriting the metrics and emitting
    its own success toast. *)
Theorem overlapping_runs_publish_after_latch :
  let threeStarted :=
    [Auth true (Some 1%nat); TimerFires 0 Scenario.day1;
     Auth true (Some 2%nat); TimerFires 1 Scenario.day1;
     Auth true (Some 3%nat); TimerFires 2 Scenario.day1] in
  let firstSucceeds :=
    [BookingsFetched 0 (inr Scenario.bookings);
     ConversationsFetched 0 (inr Scenario.conversations);
     ClientsFetched 0 (inr [mkClient "k1"]) 7] in
  let othersGoOn :=
    [BookingsFetched 1 (inr []); ConversationsFetched 1 (inr []);
     ClientsFetched 1 (inr []) 8;
     BookingsFetched 2 (inr Scenario.bookings); ConversationsFetched 2 (inr []);
     ClientsFetched 2 (inr []) 9] in
  let s := run (threeStarted ++ firstSucceeds) (init 0) in
  let s' := run othersGoOn s in
  (isValidated s = true /\ started s = 3%nat /\ fetches s = 5%nat
   /\ published s = 1%nat /\ stats s = mkStats 2 8 1 500 7 /\ timers s = [])
  /\ (isValidated s' = true /\ started s' = 3%nat /\ fetches s' = 9%nat
      /\ published s' = 3%nat /\ stats s' = mkStats 2 0 0 500 9
      /\ toasts s'
         = [ToastSuccess 2 8 1 500; ToastSuccess 0 0 0 0; ToastSuccess 2 0 0 500]).
Proof.
  cbv zeta. repeat split.
Qed.



End LatchFacts.

(** ** The route handler *)

Module RouteFacts.

Import Route.



End RouteFacts.

(** ** Further properties of the reducers *)

Module ReducerFacts.

Import Aggregate.

Lemma sumCompleted_perm f B B' D :
  Permutation B B' -> Spec.sumCompleted f B D = Spec.sumCompleted f B' D.
Proof.
  induction 1 as [| b l l' _ IH | a b l | l l' l'' _ IH1 _ IH2]; simpl.
  - reflexivity.
  - rewrite IH. reflexivity.
  - lia.
  - congruence.
Qed.

Lemma countOnDay_perm B B' D :
  Permutation B B' -> Spec.countOnDay B D = Spec.countOnDay B' D.
Proof.
  induction 1 as [| b l l' _ IH | a b l | l l' l'' _ IH1 _ IH2]; simpl.
  - reflexivity.
  - rewrite IH. reflexivity.
  - lia.
  - congruence.
Qed.

Lemma sumUnread_perm C C' :
  Permutation C C' -> Spec.sumUnread C = Spec.sumUnread C'.
Proof.
  induction 1 as [| b l l' _ IH | a b l | l l' l'' _ IH1 _ IH2]; simpl.
  - reflexivity.
  - rewrite IH. reflexivity.
  - lia.
  - congruence.
Qed.

(** X1: the metrics do not depend on the order in which a snapshot
    lists its documents. *)
Theorem snapshot_order_irrelevant
    (B B' : list Booking) (C C' : list Conversation) (K K' : list Client)
    (D : string) :
  Permutation B B' -> Permutation C C' -> Permutation K K' ->
  listenerBookings D B = listenerBookings D B'
  /\ listenerRevenue D B = listenerRevenue D B'
  /\ validationBookings D B = validationBookings D B'
  /\ validationRevenue D B = validationRevenue D B'
  /\ pendingOf C = pendingOf C'
  /\ len K = len K'.
Proof.
  intros PB PC PK.
  unfold listenerBookings, listenerRevenue, validationBookings,
    validationRevenue, todaysOf, queryByDate.
  rewrite !AggregateFacts.len_todays, !AggregateFacts.revenueOf_todays,
    !AggregateFacts.pendingOf_sumUnread.
  rewrite (countOnDay_perm B B' D PB), (sumCompleted_perm _ B B' D PB),
    (sumUnread_perm C C' PC).
  unfold len. rewrite (Permutation_length PK). repeat split.
Qed.

Lemma snapshot_order_irrelevant_witness :
  let B := Scenario.bookings in
  let C := Scenario.conversations in
  let K := [mkClient "k1"; mkClient "k2"] in
  Permutation B (rev B) /\ Permutation C (rev C) /\ Permutation K (rev K)
  /\ listenerBookings Scenario.day1 B = listenerBookings Scenario.day1 (rev B)
  /\ listenerRevenue Scenario.day1 B = listenerRevenue Scenario.day1 (rev B)
  /\ validationBookings Scenario.day1 B = validationBookings Scenario.day1 (rev B)
  /\ validationRevenue Scenario.day1 B = validationRevenue Scenario.day1 (rev B)
  /\ pendingOf C = pendingOf (rev C)
  /\ len K = len (rev K).
Proof.
  cbv zeta.
  split; [apply Permutation_rev|].
  split; [apply Permutation_rev|].
  split; [apply Permutation_rev|].
  apply (snapshot_order_irrelevant Scenario.bookings (rev Scenario.bookings)
           Scenario.conversations (rev Scenario.conversations)
           [mkClient "k1"; mkClient "k2"] (rev [mkClient "k1"; mkClient "k2"])
           Scenario.day1); apply Permutation_rev.
Defined.

(** X2: the metrics of a snapshot made of two parts are the sums of
    the metrics of the parts. *)
Theorem metrics_additive
    (B1 B2 : list Booking) (C1 C2 : list Conversation) (K1 K2 : list Client)
    (D : string) :
  listenerBookings D (B1 ++ B2) = listenerBookings D B1 + listenerBookings D B2
  /\ listenerRevenue D (B1 ++ B2) = listenerRevenue D B1 + listenerRevenue D B2
  /\ pendingOf (C1 ++ C2) = pendingOf C1 + pendingOf C2
  /\ len (K1 ++ K2) = len K1 + len K2.
Proof.
  unfold listenerBookings, listenerRevenue, todaysOf.
  rewrite !AggregateFacts.len_todays, !AggregateFacts.revenueOf_todays,
    !AggregateFacts.pendingOf_sumUnread.
  repeat split.
  - induction B1 as [|b B1 IH]; simpl; [reflexivity | rewrite IH; lia].
  - induction B1 as [|b B1 IH]; simpl; [reflexivity | rewrite IH; lia].
  - induction C1 as [|c C1 IH]; simpl; [reflexivity | rewrite IH; lia].
  - unfold len. rewrite length_app. lia.
Qed.

(** X3: what one more booking in the snapshot changes: the count
    goes up by one exactly when its date is the day, whatever its
    status; the revenue goes up by its amount exactly when moreover
    its status is "completed". Bookings of another day, or with no
    date, change nothing. *)
Theorem one_more_booking (b : Booking) (B : list Booking) (D : string) :
  listenerBookings D (b :: B)
  = (if isToday D b then 1 else 0) + listenerBookings D B
  /\ listenerRevenue D (b :: B)
     = (if isToday D b && isCompleted b then amount b else 0)
       + listenerRevenue D B
  /\ (date b = None ->
      listenerBookings D (b :: B) = listenerBookings D B
      /\ listenerRevenue D (b :: B) = listenerRevenue D B).
Proof.
  unfold listenerBookings, listenerRevenue, todaysOf.
  rewrite !AggregateFacts.len_todays, !AggregateFacts.revenueOf_todays.
  simpl. change (Spec.onDay D b) with (isToday D b).
  change (Spec.completed b) with (isCompleted b).
  rewrite AggregateFacts.amount_nonzero.
  split; [reflexivity|]. split; [reflexivity|].
  intros N. unfold isToday, Js.strict_eq. rewrite N. simpl. split; reflexivity.
Qed.

Lemma one_more_booking_witness :
  let b := mkBooking "b9" None (Some "completed"%string) (Some 900) None in
  date b = None
  /\ listenerBookings Scenario.day1 (b :: Scenario.bookings)
     = listenerBookings Scenario.day1 Scenario.bookings
  /\ listenerRevenue Scenario.day1 (b :: Scenario.bookings)
     = listenerRevenue Scenario.day1 Scenario.bookings.
Proof.
  cbv zeta. split; [reflexivity|].
  apply (one_more_booking
           (mkBooking "b9" None (Some "completed"%string) (Some 900) None)
           Scenario.bookings Scenario.day1).
  reflexivity.
Defined.

Lemma amount_nonneg b :
  (forall r, revenue b = Some r -> 0 <= r) ->
  (forall p, price b = Some p -> 0 <= p) ->
  0 <= amount b.
Proof.
  intros Hr Hp. rewrite AggregateFacts.amount_nonzero. unfold Spec.nonzeroAmount.
  destruct (revenue b) as [r|]; destruct (price b) as [p|];
    try destruct (Z.eqb_spec r 0);
    try specialize (Hr _ eq_refl); try specialize (Hp _ eq_refl); lia.
Qed.

(** X4: bounds. The count of today's bookings lies between 0 and the
    size of the snapshot; when no booking carries a negative revenue or
    price the revenue is not negative; when no conversation carries a
    negative counter neither is pendingMessages. *)
Theorem metrics_bounds (B : list Booking) (C : list Conversation) (D : string) :
  (0 <= listenerBookings D B <= len B)
  /\ ((forall b r, In b B -> revenue b = Some r -> 0 <= r) ->
      (forall b p, In b B -> price b = Some p -> 0 <= p) ->
      0 <= listenerRevenue D B)
  /\ ((forall c n, In c C -> unreadCount c = Some n -> 0 <= n) ->
      0 <= pendingOf C).
Proof.
  unfold listenerBookings, listenerRevenue, todaysOf.
  rewrite AggregateFacts.len_todays, AggregateFacts.revenueOf_todays,
    AggregateFacts.pendingOf_sumUnread.
  split; [|split].
  - unfold len. induction B as [|b B IH]; simpl List.length; simpl Spec.countOnDay.
    + lia.
    + destruct (Spec.onDay D b); lia.
  - intros Hr Hp. induction B as [|b B IH]; simpl; [lia|].
    assert (0 <= Spec.sumCompleted Spec.nonzeroAmount B D).
    { apply IH; intros; [eapply Hr | eapply Hp]; try (right; eassumption); eassumption. }
    assert (0 <= Spec.nonzeroAmount b).
    { rewrite <- AggregateFacts.amount_nonzero.
      apply amount_nonneg; intros; [eapply Hr | eapply Hp];
        try (left; reflexivity); eassumption. }
    destruct (Spec.onDay D b && Spec.completed b); lia.
  - intros Hn. induction C as [|c C IH]; simpl; [lia|].
    assert (0 <= Spec.sumUnread C)
      by (apply IH; intros; eapply Hn; [right|]; eassumption).
    destruct (unreadCount c) as [n|] eqn:E; [|lia].
    specialize (Hn c n (or_introl eq_refl) E). lia.
Qed.

Lemma metrics_bounds_witness :
  (forall b r, In b Scenario.bookings -> revenue b = Some r -> 0 <= r)
  /\ (forall b p, In b Scenario.bookings -> price b = Some p -> 0 <= p)
  /\ (forall c n, In c Scenario.conversations -> unreadCount c = Some n -> 0 <= n)
  /\ 0 <= listenerRevenue Scenario.day1 Scenario.bookings
  /\ 0 <= pendingOf Scenario.conversations.
Proof.
  assert (Hr : forall b r, In b Scenario.bookings -> revenue b = Some r -> 0 <= r).
  { intros b r [<- | [<- | [<- | []]]]; simpl; intros [= <-]; lia. }
  assert (Hp : forall b p, In b Scenario.bookings -> price b = Some p -> 0 <= p).
  { intros b p [<- | [<- | [<- | []]]]; simpl; intros [= <-]; lia. }
  assert (Hn : forall c n, In c Scenario.conversations -> unreadCount c = Some n -> 0 <= n).
  { intros c n [<- | [<- | [<- | []]]]; simpl; intros [= <-]; lia. }
  split; [exact Hr|]. split; [exact Hp|]. split; [exact Hn|].
  destruct (metrics_bounds Scenario.bookings Scenario.conversations Scenario.day1)
    as (_ & R & P).
  split; [exact (R Hr Hp) | exact (P Hn)].
Defined.

End ReducerFacts.

(** ** Further properties of the listeners and the midnight timer *)

Module ScheduleFacts.

Import Listeners Race Schedule.

(** X5: the delay of the midnight timeout. It is a whole number of
    seconds and never negative; while midnight is still ahead the
    timeout is due within the last second before it and never after
    it; once midnight has passed the delay is 0. *)
Theorem midnight_delay_bounds (c : Clock) :
  0 <= getSecondsUntilMidnight c
  /\ (now c <= nextMidnight c ->
      getSecondsUntilMidnight c * 1000 <= nextMidnight c - now c
                                        < getSecondsUntilMidnight c * 1000 + 1000)
  /\ (nextMidnight c <= now c -> getSecondsUntilMidnight c = 0)
  /\ (nextMidnight c <= now c + 86400000 -> getSecondsUntilMidnight c <= 86400).
Proof.
  unfold getSecondsUntilMidnight.
  set (d := nextMidnight c - now c).
  pose proof (Z.div_mod d 1000 ltac:(lia)) as E.
  pose proof (Z.mod_pos_bound d 1000 ltac:(lia)) as M.
  repeat split; intros; lia.
Qed.

Lemma midnight_delay_bounds_witness :
  Scenario.lateDay1.(now) <= Scenario.lateDay1.(nextMidnight)
  /\ getSecondsUntilMidnight Scenario.lateDay1 * 1000
     <= Scenario.lateDay1.(nextMidnight) - Scenario.lateDay1.(now)
     < getSecondsUntilMidnight Scenario.lateDay1 * 1000 + 1000.
Proof.
  split; [vm_compute; discriminate|].
  apply (midnight_delay_bounds Scenario.lateDay1). vm_compute; discriminate.
Defined.


Lemma run_app es1 es2 s : run (es1 ++ es2) s = run es2 (run es1 s).
Proof. unfold run. apply fold_left_app. Qed.

Lemma step_alive e s : isTeardown e = false -> alive s -> alive (step e s).
Proof.
  unfold alive. intros NT A.
  destruct s as [st cd mt tm nid inf sb sc scl tr].
  destruct e as [id c | c docs | c docs | c docs | c docs |]; simpl in *;
    try discriminate.
  - unfold isPending. simpl. destruct (existsb _ tm); simpl; lia.
  - destruct inf; simpl; [exact A|]. rewrite length_app. simpl. lia.
  - destruct sb; simpl; [|exact A].
    unfold exec, onBookings, bind, readCurrentDate. simpl.
    destruct (negb (String.eqb (today c) cd)); simpl; [|exact A].
    rewrite length_app. simpl. lia.
  - destruct sc; simpl; exact A.
  - destruct scl; simpl; exact A.
Qed.

Lemma hostStep_alive h s : sparesChain h = true -> alive s -> alive (hostStep h s).
Proof.
  destruct h as [e|]; simpl; [|discriminate].
  intros H. apply step_alive. destruct (isTeardown e); [discriminate | reflexivity].
Qed.

(** X6: from the moment the listeners are set up, as long as the
    teardown has not run and no midnight re-fetch has rejected, the
    midnight chain stays alive whatever else the host delivers: a
    timeout is pending, or a re-fetch is in flight whose continuation
    arms one. The two exceptions are real: the teardown ends the
    chain, and so does a re-fetch that rejects after the timeout
    fired. *)
Theorem chain_stays_alive (c : Clock) (st : SystemStats) (hs : list HostEvent) :
  (forallb sparesChain hs = true -> alive (hostRun hs (mounted c st)))
  /\ (forall c', ~ alive (hostRun [Delivers (TimerFires 0 c'); Rejects] (mounted c st)))
  /\ ~ alive (hostRun [Delivers Teardown] (mounted c st)).
Proof.
  split; [|split].
  - assert (G : forall s, alive s -> forallb sparesChain hs = true ->
                          alive (hostRun hs s)).
    { unfold hostRun. induction hs as [|h hs IH]; intros s A H; simpl in *.
      - exact A.
      - apply andb_prop in H. destruct H as [H1 H2].
        apply IH; [|exact H2]. apply hostStep_alive; assumption. }
    intros H. apply G; [|exact H]. unfold alive. simpl. lia.
  - intros c'. unfold alive. simpl. lia.
  - unfold alive. simpl. lia.
Qed.

Lemma chain_stays_alive_witness :
  let hs :=
    [Delivers (BookingsSnapshot Scenario.lateDay1 Scenario.bookings);
     Delivers (TimerFires 0 Scenario.earlyDay2);
     Delivers (BookingsSnapshot Scenario.laterDay2 Scenario.bookings);
     Delivers (ConversationsSnapshot Scenario.laterDay2 Scenario.conversations);
     Delivers (RefetchResolves Scenario.laterDay2 Scenario.bookings)] in
  forallb sparesChain hs = true
  /\ alive (hostRun hs (mounted Scenario.lateDay1 Scenario.zero)).
Proof.
  cbv zeta. split; [reflexivity|].
  apply (chain_stays_alive Scenario.lateDay1 Scenario.zero). reflexivity.
Defined.

Lemma dropTimer_single t d : dropTimer t [(t, d)] = [].
Proof. unfold dropTimer. simpl. rewrite Nat.eqb_refl. reflexivity. Qed.

Lemma step_stopped e s :
  stopped s ->
  (forall c docs, e = BookingsSnapshot c docs -> today c = currentDate s) ->
  stopped (step e s)
  /\ currentDate (step e s) = currentDate s
  /\ nextId (step e s) = nextId s.
Proof.
  intros [T I] Same.
  destruct s as [st cd mt tm nid inf sb sc scl tr]. simpl in *. subst tm inf.
  destruct e as [id c | c docs | c docs | c docs | c docs |]; simpl.
  - repeat split.
  - repeat split.
  - destruct sb; [|repeat split].
    unfold exec, onBookings, bind, readCurrentDate. simpl.
    rewrite (Same c docs eq_refl), String.eqb_refl. repeat split.
  - destruct sc; repeat split.
  - destruct scl; repeat split.
  - unfold exec, cleanup, bind. simpl. destruct mt; repeat split.
Qed.

Lemma rejected_state s c :
  atRest s ->
  refetchRejects (fire c s)
  = mkState (stats s) (today c) (midnightTimer s) [] (nextId s) 0%nat true
      (subConversations s) (subClients s) (trace s ++ [GetDocs]).
Proof.
  intros (t & d & Ht & Hm & Hlt & Hi & Hsb).
  destruct s as [st cd mt tm nid inf sb sc scl tr]. simpl in *.
  subst tm mt inf sb.
  unfold fire, refetchRejects, step, isPending. simpl.
  rewrite Nat.eqb_refl. simpl.
  unfold exec, bind, dropTimer. simpl. rewrite Nat.eqb_refl. reflexivity.
Qed.

(** X7: the midnight re-fetch has no rejection handler. If it rejects
    after the timeout fired from a closure at rest, the chain has
    stopped: no timeout is pending and none is armed by any later
    event, except by a bookings snapshot that arrives on another day
    while the listener is attached, which arms exactly one. *)
Theorem rejected_refetch_stops_chain (s : State) (c : Clock) :
  atRest s ->
  let s1 := refetchRejects (fire c s) in
  stopped s1
  /\ stats s1 = stats s
  /\ currentDate s1 = today c
  /\ subBookings s1 = true
  /\ (forall es,
        (forall c' docs, In (BookingsSnapshot c' docs) es -> today c' = today c) ->
        stopped (run es s1) /\ nextId (run es s1) = nextId s1)
  /\ (forall c' docs,
        today c' <> today c ->
        List.length (timers (step (BookingsSnapshot c' docs) s1)) = 1%nat).
Proof.
  intros R. cbv zeta. rewrite (rejected_state s c R).
  split; [split; reflexivity|]. split; [reflexivity|].
  split; [reflexivity|]. split; [reflexivity|]. split.
  - intros es.
    match goal with
    | |- _ -> stopped (run es ?x) /\ _ => set (s1 := x)
    end.
    assert (G : forall s0, stopped s0 -> currentDate s0 = today c ->
                (forall c' docs, In (BookingsSnapshot c' docs) es -> today c' = today c) ->
                stopped (run es s0) /\ nextId (run es s0) = nextId s0).
    { clear. unfold run. induction es as [|e es IH]; intros s0 S0 D0 H; simpl.
      - split; [exact S0 | reflexivity].
      - destruct (step_stopped e s0 S0) as (S1 & D1 & N1).
        { intros c' docs ->. rewrite D0. apply (H c' docs). left. reflexivity. }
        destruct (IH (step e s0) S1) as (S2 & N2).
        + congruence.
        + intros c' docs Hin. apply (H c' docs). right. exact Hin.
        + split; [exact S2 | congruence]. }
    intros H. apply G; [split; reflexivity | reflexivity | exact H].
  - intros c' docs Hne. simpl.
    unfold exec, onBookings, bind, readCurrentDate. simpl.
    destruct (String.eqb_spec (today c') (today c)); [contradiction|]. simpl.
    destruct (midnightTimer s); reflexivity.
Qed.

Lemma rejected_refetch_stops_chain_witness :
  let s := mounted Scenario.lateDay1 Scenario.zero in
  let s1 := refetchRejects (fire Scenario.earlyDay2 s) in
  atRest s /\ stopped s1 /\ stats s1 = stats s.
Proof.
  cbv zeta. split; [apply RaceFacts.mounted_atRest|].
  destruct (rejected_refetch_stops_chain
              (mounted Scenario.lateDay1 Scenario.zero) Scenario.earlyDay2
              (RaceFacts.mounted_atRest _ _)) as (S & St & _).
  split; [exact S | exact St].
Defined.


(** Unfold one listener callback on a state given field by field. *)
Ltac run_callbacks :=
  unfold agree, step, exec, onBookings, onConversations, onClients, bind,
    readCurrentDate, metrics;
  simpl.

(** X8: a snapshot delivered twice is harmless. Handling the same
    bookings snapshot again on the same day leaves the metrics, the
    boundary and the timeouts as the first delivery left them; the
    same holds for a repeated conversations or clients snapshot. Only
    the time stamp moves. *)
Theorem duplicate_snapshot_harmless
    (s : State) (c c' : Clock) (n m : Z)
    (B : list Booking) (C : list Conversation) (K : list Client) :
  (let once := step (BookingsSnapshot c B) s in
   agree (step (BookingsSnapshot (mkClock (today c) n m) B) once) once)
  /\ (let once := step (ConversationsSnapshot c C) s in
      agree (step (ConversationsSnapshot c' C) once) once)
  /\ (let once := step (ClientsSnapshot c K) s in
      agree (step (ClientsSnapshot c' K) once) once).
Proof.
  destruct s as [st cd mt tm nid inf sb sc scl tr]. cbv zeta.
  split; [|split].
  - run_callbacks. destruct sb; [|repeat split].
    run_callbacks.
    destruct (String.eqb_spec (today c) cd) as [E|E]; simpl;
      run_callbacks; rewrite ?String.eqb_refl; simpl;
      try (destruct (String.eqb_spec (today c) cd); [|contradiction]);
      simpl; repeat split.
  - run_callbacks. destruct sc; run_callbacks; repeat split.
  - run_callbacks. destruct scl; run_callbacks; repeat split.
Qed.

(** X9: the three listeners do not interfere. Handling snapshots of
    two different collections in either order leaves the same metrics,
    boundary and timeouts; only the time stamp depends on the order. *)
Theorem listeners_commute
    (s : State) (c1 c2 c3 : Clock)
    (B : list Booking) (C : list Conversation) (K : list Client) :
  let eB := BookingsSnapshot c1 B in
  let eC := ConversationsSnapshot c2 C in
  let eK := ClientsSnapshot c3 K in
  agree (step eC (step eB s)) (step eB (step eC s))
  /\ agree (step eK (step eB s)) (step eB (step eK s))
  /\ agree (step eK (step eC s)) (step eC (step eK s))
  /\ (subBookings s = true -> subConversations s = true -> subClients s = true ->
      metrics (stats (step eK (step eC (step eB s))))
      = (Spec.countOnDay B (today c1), Spec.sumUnread C, Aggregate.len K,
         Spec.sumCompleted Spec.nonzeroAmount B (today c1))).
Proof.
  destruct s as [st cd mt tm nid inf sb sc scl tr]. cbv zeta.
  split; [|split; [|split]].
  - run_callbacks. destruct sb, sc; run_callbacks;
      try (destruct (String.eqb_spec (today c1) cd); simpl);
      repeat split.
  - run_callbacks. destruct sb, scl; run_callbacks;
      try (destruct (String.eqb_spec (today c1) cd); simpl);
      repeat split.
  - run_callbacks. destruct sc, scl; run_callbacks; repeat split.
  - simpl. intros -> -> ->. run_callbacks.
    assert (E : forall D, (Aggregate.listenerBookings D B, Aggregate.pendingOf C,
                           Aggregate.len K, Aggregate.listenerRevenue D B)
                          = (Spec.countOnDay B D, Spec.sumUnread C, Aggregate.len K,
                             Spec.sumCompleted Spec.nonzeroAmount B D)).
    { intros D. unfold Aggregate.listenerBookings, Aggregate.listenerRevenue,
        Aggregate.todaysOf.
      rewrite AggregateFacts.len_todays, AggregateFacts.revenueOf_todays,
        AggregateFacts.pendingOf_sumUnread. reflexivity. }
    destruct (String.eqb_spec (today c1) cd) as [H|H]; simpl;
      [rewrite <- H|]; apply E.
Qed.

Lemma listeners_commute_witness :
  let s := mounted Scenario.lateDay1 Scenario.zero in
  subBookings s = true /\ subConversations s = true /\ subClients s = true
  /\ metrics
       (stats
          (step (ClientsSnapshot Scenario.lateDay1 [mkClient "k1"])
             (step (ConversationsSnapshot Scenario.lateDay1 Scenario.conversations)
                (step (BookingsSnapshot Scenario.lateDay1 Scenario.bookings) s))))
     = (Spec.countOnDay Scenario.bookings (today Scenario.lateDay1),
        Spec.sumUnread Scenario.conversations, Aggregate.len [mkClient "k1"],
        Spec.sumCompleted Spec.nonzeroAmount Scenario.bookings
          (today Scenario.lateDay1)).
Proof.
  cbv zeta. split; [reflexivity|]. split; [reflexivity|]. split; [reflexivity|].
  apply (listeners_commute (mounted Scenario.lateDay1 Scenario.zero)
           Scenario.lateDay1 Scenario.lateDay1 Scenario.lateDay1
           Scenario.bookings Scenario.conversations [mkClient "k1"]);
    reflexivity.
Defined.


Lemma step_lastUpdate e s t :
  lastUpdate (stats s) <= t ->
  match clockOf e with
  | Some c => t <= now c
  | None => True
  end ->
  lastUpdate (stats s) <= lastUpdate (stats (step e s))
  /\ lastUpdate (stats (step e s)) <= endTime t [e].
Proof.
  intros L H.
  destruct s as [st cd mt tm nid inf sb sc scl tr].
  destruct e as [id c | c docs | c docs | c docs | c docs |]; simpl in *.
  - unfold isPending. simpl. destruct (existsb _ tm); simpl; lia.
  - destruct inf; simpl; lia.
  - destruct sb; simpl; [|lia].
    rewrite (ListenerFacts.onBookings_stats c docs). simpl. lia.
  - destruct sc; simpl; lia.
  - destruct scl; simpl; lia.
  - lia.
Qed.

Lemma run_lastUpdate es : forall s t,
  lastUpdate (stats s) <= t -> chronological t es ->
  lastUpdate (stats s) <= lastUpdate (stats (run es s))
  /\ lastUpdate (stats (run es s)) <= endTime t es.
Proof.
  unfold run. induction es as [|e es IH]; intros s t L H; simpl in *.
  - lia.
  - destruct (clockOf e) as [c|] eqn:E.
    + destruct H as [H1 H2].
      destruct (step_lastUpdate e s t L) as [A B]; [rewrite E; exact H1|].
      simpl in B. rewrite E in B.
      destruct (IH (step e s) (now c) B H2) as [A' B']. lia.
    + destruct (step_lastUpdate e s t L) as [A B]; [rewrite E; exact I|].
      simpl in B. rewrite E in B.
      destruct (IH (step e s) t B H) as [A' B']. lia.
Qed.

Lemma chronological_app es1 : forall es2 t,
  chronological t (es1 ++ es2) ->
  chronological t es1 /\ chronological (endTime t es1) es2.
Proof.
  induction es1 as [|e es1 IH]; intros es2 t H; simpl in *.
  - split; [exact I | exact H].
  - destruct (clockOf e) as [c|].
    + destruct H as [H1 H2]. destruct (IH es2 (now c) H2) as [A B].
      repeat split; assumption.
    + apply IH. exact H.
Qed.

(** X10: [lastUpdate] never goes back. When the host delivers the
    events in the order of their clock readings, none earlier than the
    stamp the metrics carry, the stamp after any prefix of the events
    is at most the stamp after the whole sequence. *)
Theorem lastUpdate_never_goes_back (s : State) (t : Z) (es1 es2 : list Event) :
  lastUpdate (stats s) <= t ->
  chronological t (es1 ++ es2) ->
  lastUpdate (stats s) <= lastUpdate (stats (run es1 s))
  /\ lastUpdate (stats (run es1 s)) <= lastUpdate (stats (run (es1 ++ es2) s)).
Proof.
  intros L H. destruct (chronological_app es1 es2 t H) as [H1 H2].
  destruct (run_lastUpdate es1 s t L H1) as [A B].
  split; [exact A|]. rewrite run_app.
  apply (run_lastUpdate es2 (run es1 s) (endTime t es1) B H2).
Qed.

Lemma lastUpdate_never_goes_back_witness :
  let s := mounted Scenario.lateDay1 Scenario.zero in
  let es1 := [BookingsSnapshot Scenario.lateDay1 Scenario.bookings;
              TimerFires 0 Scenario.earlyDay2] in
  let es2 := [RefetchResolves Scenario.laterDay2 Scenario.bookings] in
  lastUpdate (stats s) <= 0
  /\ chronological 0 (es1 ++ es2)
  /\ lastUpdate (stats s) <= lastUpdate (stats (run es1 s))
  /\ lastUpdate (stats (run es1 s)) <= lastUpdate (stats (run (es1 ++ es2) s)).
Proof.
  cbv zeta.
  assert (L : lastUpdate (stats (mounted Scenario.lateDay1 Scenario.zero)) <= 0)
    by (vm_compute; discriminate).
  assert (H : chronological 0
                ([BookingsSnapshot Scenario.lateDay1 Scenario.bookings;
                  TimerFires 0 Scenario.earlyDay2]
                 ++ [RefetchResolves Scenario.laterDay2 Scenario.bookings])).
  { simpl. repeat split; vm_compute; discriminate. }
  split; [exact L|]. split; [exact H|].
  exact (lastUpdate_never_goes_back _ 0 _ _ L H).
Defined.

Lemma dropTimer_all id l :
  (forall t, In t l -> fst t = id) -> dropTimer id l = [].
Proof.
  unfold dropTimer. induction l as [|t l IH]; intros H; simpl; [reflexivity|].
  rewrite (H t (or_introl eq_refl)), Nat.eqb_refl. simpl.
  apply IH. intros t' Hin. apply H. right. exact Hin.
Qed.

Lemma step_released e s :
  released s ->
  released (step e s) /\ stats (step e s) = stats s
  /\ nextId (step e s) = nextId s /\ currentDate (step e s) = currentDate s.
Proof.
  intros (T & I & B & C & K).
  destruct s as [st cd mt tm nid inf sb sc scl tr]. simpl in *.
  subst tm inf sb sc scl.
  destruct e as [id c | c docs | c docs | c docs | c docs |]; simpl;
    try (repeat split; reflexivity).
  unfold exec, cleanup, bind. simpl. destruct mt; repeat split.
Qed.

(** X11: teardown of a closure with nothing in flight is final. When
    no re-fetch is in flight and every pending timeout is the
    remembered one, the cleanup leaves no timeout and no listener, and
    whatever the host delivers afterwards changes neither the metrics
    nor the boundary, and arms no timeout. *)
Theorem quiescent_teardown_is_final (s : State) (es : list Event) :
  quiescent s ->
  let s' := step Teardown s in
  released s'
  /\ stats s' = stats s
  /\ released (run es s')
  /\ stats (run es s') = stats s
  /\ currentDate (run es s') = currentDate s
  /\ nextId (run es s') = nextId s.
Proof.
  intros [I Q]. cbv zeta.
  assert (R : released (step Teardown s)).
  { destruct s as [st cd mt tm nid inf sb sc scl tr]. simpl in *. subst inf.
    unfold released, exec, cleanup, bind. simpl.
    destruct mt as [id|].
    - simpl. rewrite dropTimer_all; [repeat split|].
      intros t Hin. specialize (Q t Hin). congruence.
    - destruct tm as [|t tm]; [repeat split|].
      specialize (Q t (or_introl eq_refl)). discriminate. }
  assert (G : forall s0, released s0 ->
                released (run es s0) /\ stats (run es s0) = stats s0
                /\ nextId (run es s0) = nextId s0
                /\ currentDate (run es s0) = currentDate s0).
  { clear. unfold run. induction es as [|e es IH]; intros s0 R0; simpl.
    - split; [exact R0 | repeat split].
    - destruct (step_released e s0 R0) as (R1 & S1 & N1 & D1).
      destruct (IH (step e s0) R1) as (R2 & S2 & N2 & D2).
      split; [exact R2|]. repeat split; congruence. }
  destruct (G _ R) as (R' & S' & N' & D').
  split; [exact R|]. split; [reflexivity|]. split; [exact R'|].
  split; [rewrite S'; reflexivity|]. split; [rewrite D'; reflexivity|].
  rewrite N'. reflexivity.
Qed.

Lemma quiescent_teardown_is_final_witness :
  let s := mounted Scenario.lateDay1 Scenario.zero in
  let es := [BookingsSnapshot Scenario.earlyDay2 Scenario.bookings;
             TimerFires 0 Scenario.earlyDay2;
             RefetchResolves Scenario.laterDay2 Scenario.bookings] in
  quiescent s
  /\ released (run es (step Teardown s))
  /\ stats (run es (step Teardown s)) = stats s.
Proof.
  cbv zeta.
  assert (Q : quiescent (mounted Scenario.lateDay1 Scenario.zero)).
  { split; [reflexivity|]. intros t [<- | []]. reflexivity. }
  split; [exact Q|].
  destruct (quiescent_teardown_is_final
              (mounted Scenario.lateDay1 Scenario.zero)
              [BookingsSnapshot Scenario.earlyDay2 Scenario.bookings;
               TimerFires 0 Scenario.earlyDay2;
               RefetchResolves Scenario.laterDay2 Scenario.bookings] Q)
    as (_ & _ & R & S & _).
  split; [exact R | exact S].
Defined.


(** X12: the continuation of the midnight re-fetch re-arms without
    clearing. If, between the fire and its continuation, the bookings
    callback sees another day than the one the timer callback read, it
    arms a timeout and the continuation then arms a second one; both
    stay pending, only the second is remembered, and a teardown that
    follows cancels only that one. *)
Theorem rearm_during_refetch_doubles_timer
    (s : State) (c1 c2 c3 : Clock) (B B' : list Booking) :
  atRest s ->
  today c2 <> today c1 ->
  let s3 := resolve c3 B' (snapshot c2 B (fire c1 s)) in
  timers s3
  = [(nextId s, getSecondsUntilMidnight c2 * 1000);
     (S (nextId s), getSecondsUntilMidnight c3 * 1000)]
  /\ midnightTimer s3 = Some (S (nextId s))
  /\ currentDate s3 = today c2
  /\ inflight s3 = 0%nat
  /\ timers (step Teardown s3)
     = [(nextId s, getSecondsUntilMidnight c2 * 1000)].
Proof.
  intros (t & d & Ht & Hm & Hlt & Hi & Hsb) Hne. cbv zeta.
  destruct s as [st cd mt tm nid inf sb sc scl tr]. simpl in *.
  subst tm mt inf sb.
  unfold fire, resolve, snapshot, step, isPending. simpl.
  rewrite ?Nat.eqb_refl. simpl.
  unfold exec, onBookings, onRefetched, cleanup, bind, readCurrentDate, readMidnightTimer, dropTimer. simpl.
  rewrite ?Nat.eqb_refl. simpl.
  destruct (String.eqb_spec (today c2) (today c1)) as [E|E]; [contradiction|].
  simpl. rewrite ?Nat.eqb_refl. simpl.
  assert (N : Nat.eqb nid (S nid) = false) by (apply Nat.eqb_neq; lia).
  rewrite ?N. simpl. repeat split.
Qed.

Lemma rearm_during_refetch_doubles_timer_witness :
  let s := mounted Scenario.lateDay1 Scenario.zero in
  let s3 := resolve Scenario.laterDay2 Scenario.bookings
              (snapshot Scenario.earlyDay2 Scenario.bookings
                 (fire Scenario.lateDay1 s)) in
  atRest s
  /\ today Scenario.earlyDay2 <> today Scenario.lateDay1
  /\ List.length (timers s3) = 2%nat
  /\ List.length (timers (step Teardown s3)) = 1%nat.
Proof.
  cbv zeta. split; [apply RaceFacts.mounted_atRest|].
  split; [discriminate|].
  destruct (rearm_during_refetch_doubles_timer
              (mounted Scenario.lateDay1 Scenario.zero)
              Scenario.lateDay1 Scenario.earlyDay2 Scenario.laterDay2
              Scenario.bookings Scenario.bookings
              (RaceFacts.mounted_atRest _ _))
    as (T & _ & _ & _ & T'); [discriminate|].
  rewrite T, T'. split; reflexivity.
Defined.

(** X13: a closure at rest returns to rest. After a midnight fire and
    the continuation of its re-fetch, and after any snapshot callback,
    again exactly one timeout is pending, it is the remembered one and
    nothing is in flight; the midnight cycle publishes the count and
    the revenue of the re-fetched bookings for the day the timer
    callback read, and leaves the two other metrics alone. *)
Theorem rest_is_restored
    (s : State) (c1 c2 : Clock) (B : list Booking) (C : list Conversation)
    (K : list Client) :
  atRest s ->
  (let s2 := resolve c2 B (fire c1 s) in
   atRest s2
   /\ currentDate s2 = today c1
   /\ timers s2 = [(nextId s, getSecondsUntilMidnight c2 * 1000)]
   /\ stats s2
      = mkStats (Spec.countOnDay B (today c1)) (pendingMessages (stats s))
          (activeCustomers (stats s))
          (Spec.sumCompleted Spec.nonzeroAmount B (today c1)) (now c2))
  /\ atRest (step (BookingsSnapshot c1 B) s)
  /\ atRest (step (ConversationsSnapshot c1 C) s)
  /\ atRest (step (ClientsSnapshot c1 K) s).
Proof.
  intros (t & d & Ht & Hm & Hlt & Hi & Hsb). cbv zeta.
  destruct s as [st cd mt tm nid inf sb sc scl tr]. simpl in *.
  subst tm mt inf sb.
  split; [|split; [|split]].
  - unfold fire, resolve, step, isPending. simpl.
    rewrite ?Nat.eqb_refl. simpl.
    unfold exec, onRefetched, bind, readCurrentDate, dropTimer. simpl.
    rewrite ?Nat.eqb_refl. simpl.
    split; [|split; [reflexivity|split; [reflexivity|]]].
    + eexists _, _. simpl. repeat split. lia.
    + unfold mergeBookings, Aggregate.midnightBookings, Aggregate.midnightRevenue,
        Aggregate.todaysOf. simpl.
      rewrite AggregateFacts.len_todays, AggregateFacts.revenueOf_todays.
      reflexivity.
  - simpl. unfold exec, onBookings, bind, readCurrentDate. simpl.
    destruct (String.eqb_spec (today c1) cd) as [E|E]; simpl.
    + exists t, d. simpl. repeat split. exact Hlt.
    + unfold dropTimer. simpl. rewrite ?Nat.eqb_refl. simpl.
      eexists _, _. simpl. repeat split. lia.
  - simpl. destruct sc; simpl; exists t, d; simpl; repeat split; exact Hlt.
  - simpl. destruct scl; simpl; exists t, d; simpl; repeat split; exact Hlt.
Qed.

Lemma rest_is_restored_witness :
  let s := mounted Scenario.lateDay1 Scenario.zero in
  let s2 := resolve Scenario.laterDay2 Scenario.bookings
              (fire Scenario.earlyDay2 s) in
  atRest s
  /\ atRest s2
  /\ currentDate s2 = Scenario.day2
  /\ stats s2 = mkStats 1 0 0 200 86460000.
Proof.
  cbv zeta. split; [apply RaceFacts.mounted_atRest|].
  destruct (rest_is_restored (mounted Scenario.lateDay1 Scenario.zero)
              Scenario.earlyDay2 Scenario.laterDay2 Scenario.bookings [] []
              (RaceFacts.mounted_atRest _ _))
    as ((R & D & _ & S) & _).
  split; [exact R|]. split; [exact D|]. rewrite S. reflexivity.
Defined.

End ScheduleFacts.

(** ** Further properties of the validation effect *)

Module AuthorizationFacts.

Import Validation Authorization.

Lemma step_untouched stamp e s :
  grants e = false -> untouched stamp s -> untouched stamp (step e s).
Proof.
  intros G (T & R & S & F & P & To & V & St & A).
  destruct s as [ad us va sts tmr tms nid rs sd fs ps ts]. simpl in *.
  subst tms rs sd fs ps ts va sts.
  destruct e as [admin u | id today | i p | i p | i p stamp']; simpl in *.
  - unfold onAuth. simpl.
    destruct (Bool.eqb admin ad && sameUser u us);
      [unfold untouched; simpl; repeat split; try reflexivity; exact A|].
    unfold rerun, effect, cleanup. simpl.
    assert (Guard : negb admin || noUser u = true).
    { destruct admin; simpl in *; [|reflexivity].
      destruct (noUser u); [reflexivity | discriminate]. }
    destruct tmr; simpl; rewrite Guard; simpl;
      unfold untouched; simpl; repeat split; try reflexivity;
      destruct admin; simpl in *; auto.
  - unfold untouched; simpl; repeat split; try reflexivity; exact A.
  - unfold untouched; simpl; repeat split; try reflexivity; exact A.
  - unfold untouched; simpl; repeat split; try reflexivity; exact A.
  - unfold untouched; simpl; repeat split; try reflexivity; exact A.
Qed.

(** X14: without authorization nothing happens. As long as
    [useAdminAuth] never yields an admin flag together with a user
    object, no validation is scheduled, started or fetched, no toast
    is emitted, the latch stays unset and the metrics stay the
    initial zeros, whatever else the host delivers. *)
Theorem unauthorized_session_is_inert (stamp : Z) (es : list Event) :
  forallb (fun e => negb (grants e)) es = true ->
  untouched stamp (run es (init stamp)).
Proof.
  assert (G : forall s, untouched stamp s ->
                forallb (fun e => negb (grants e)) es = true ->
                untouched stamp (run es s)).
  { unfold run. induction es as [|e es IH]; intros s U H; simpl in *.
    - exact U.
    - apply andb_prop in H. destruct H as [H1 H2].
      apply IH; [|exact H2]. apply step_untouched; [|exact U].
      destruct (grants e); [discriminate | reflexivity]. }
  intros H. apply G; [|exact H].
  unfold untouched, init. simpl. repeat split. left. reflexivity.
Qed.

Lemma unauthorized_session_is_inert_witness :
  let es :=
    [Auth false (Some 1%nat); TimerFires 0 Scenario.day1; Auth true None;
     BookingsFetched 0 (inr Scenario.bookings); Auth false None] in
  forallb (fun e => negb (grants e)) es = true
  /\ untouched 0 (run es (init 0)).
Proof.
  cbv zeta. split; [reflexivity|].
  apply (unauthorized_session_is_inert 0). reflexivity.
Defined.


Lemma guard_false a u v :
  negb a || noUser u || v = false -> a = true /\ noUser u = false /\ v = false.
Proof. destruct a, (noUser u), v; simpl; intros H; try discriminate; repeat split. Qed.

Lemma rerun_due s :
  (timers s = [] \/ exists t, timers s = [t] /\ timer s = Some t) ->
  scheduledOnlyWhenDue (rerun s).
Proof.
  intros H. destruct (LatchFacts.cleanup_clears s H) as [Ht Hc].
  unfold rerun, effect, scheduledOnlyWhenDue.
  destruct (negb (isAdmin (cleanup s)) || noUser (user (cleanup s))
            || isValidated (cleanup s)) eqn:G; simpl.
  - rewrite Ht. intros t [].
  - intros t _. apply guard_false. exact G.
Qed.

Lemma step_due e s :
  tidy s -> scheduledOnlyWhenDue s -> scheduledOnlyWhenDue (step e s).
Proof.
  intros [H1 H2] D. destruct e as [admin u | id today | i p | i p | i p stamp].
  - simpl. unfold onAuth.
    destruct (Bool.eqb admin (isAdmin s) && sameUser u (user s)); [exact D|].
    apply rerun_due. exact H1.
  - simpl. destruct (existsb (Nat.eqb id) (timers s)) eqn:E; [|exact D].
    destruct H1 as [H1 | (t & Ht & Hc)].
    + rewrite H1 in E. discriminate.
    + rewrite Ht in E. apply LatchFacts.existsb_single in E. subst id.
      unfold runValidation, scheduledOnlyWhenDue. simpl. rewrite Ht. simpl.
      rewrite Nat.eqb_refl. simpl. intros t' [].
  - simpl. destruct (findRun i (runs s)) as [[today | b r | b r pm]|];
      try exact D.
    destruct p as [err | all]; simpl; exact D.
  - simpl. destruct (findRun i (runs s)) as [[today | b r | b r pm]|];
      try exact D.
    destruct p as [err | all]; simpl; exact D.
  - simpl. destruct (findRun i (runs s)) as [[today | b r | b r pm]|];
      try exact D.
    destruct p as [err | all]; simpl; [exact D|].
    unfold publish. destruct (isValidated s) eqn:V.
    + unfold scheduledOnlyWhenDue. simpl. rewrite (H2 eq_refl). intros t [].
    + apply rerun_due. simpl. exact H1.
Qed.

Lemma run_due stamp es :
  tidy (run es (init stamp)) /\ scheduledOnlyWhenDue (run es (init stamp)).
Proof.
  unfold run. rewrite <- (rev_involutive es).
  induction (rev es) as [|e l IH]; simpl.
  - split; [apply LatchFacts.init_tidy | intros t []].
  - rewrite fold_left_app. simpl. destruct IH as [T D].
    split; [apply LatchFacts.step_tidy; exact T | apply step_due; assumption].
Qed.

(** X15: a validation is scheduled only while it is due. In every
    reachable state at most one settle timeout is pending, it is the
    one the latest effect run scheduled, and it is pending only while
    the session has an admin flag and a user object and the latch is
    unset; any change of the authorization that takes one of them away
    cancels it. *)
Theorem validation_scheduled_only_when_due (stamp : Z) (es : list Event) :
  let s := run es (init stamp) in
  (List.length (timers s) <= 1)%nat
  /\ (forall t, In t (timers s) ->
        timer s = Some t /\ isAdmin s = true /\ noUser (user s) = false
        /\ isValidated s = false)
  /\ (forall admin u,
        grants (Auth admin u) = false ->
        timers (step (Auth admin u) s) = []).
Proof.
  cbv zeta. destruct (run_due stamp es) as [[T1 T2] D].
  set (s := run es (init stamp)) in *.
  split; [|split].
  - destruct T1 as [-> | (t & -> & _)]; simpl; lia.
  - intros t Hin. split; [|exact (D t Hin)].
    destruct T1 as [E | (t' & E & Hc)]; rewrite E in Hin.
    + destruct Hin.
    + destruct Hin as [<- | []]. exact Hc.
  - intros admin u G. simpl. unfold onAuth.
    destruct (Bool.eqb admin (isAdmin s) && sameUser u (user s)) eqn:Same.
    + destruct (timers s) as [|t l] eqn:E; [reflexivity|]. exfalso.
      destruct (D t) as (A & U & _); [rewrite E; left; reflexivity|].
      apply andb_prop in Same. destruct Same as [Sa Su].
      apply Bool.eqb_prop in Sa. subst admin. rewrite A in G. simpl in G.
      assert (noUser u = false).
      { destruct u, (user s); simpl in *; try discriminate; reflexivity. }
      rewrite H in G. discriminate.
    + match goal with
      | |- timers (rerun ?x) = [] => set (s0 := x)
      end.
      destruct (LatchFacts.cleanup_clears s0 T1) as [Ht Hc].
      unfold rerun, effect.
      assert (Guard : negb (isAdmin (cleanup s0)) || noUser (user (cleanup s0))
                      || isValidated (cleanup s0) = true).
      { destruct (ValidationFacts.cleanup_fields s0) as (A & U & _).
        rewrite A, U. simpl. simpl in G.
        destruct admin; simpl in *; [|reflexivity].
        destruct (noUser u); [reflexivity | discriminate]. }
      rewrite Guard. simpl. exact Ht.
Qed.

Lemma validation_scheduled_only_when_due_witness :
  let s := run [Auth true (Some 1%nat)] (init 0) in
  timers s = [0%nat]
  /\ grants (Auth false (Some 1%nat)) = false
  /\ timers (step (Auth false (Some 1%nat)) s) = []
  /\ (forall t, In t (timers s) ->
        timer s = Some t /\ isAdmin s = true /\ noUser (user s) = false
        /\ isValidated s = false).
Proof.
  cbv zeta. split; [reflexivity|]. split; [reflexivity|].
  destruct (validation_scheduled_only_when_due 0 [Auth true (Some 1%nat)])
    as (_ & D & C).
  split; [apply C; reflexivity | exact D].
Defined.

(** X16: a retry needs the host. After any history that left the
    latch unset, a change of the authorization to an admin flag with a
    user object schedules exactly one new settle timeout, and when it
    fires a further validation run starts; an authorization that
    repeats the current values schedules nothing. *)
Theorem reauthorization_schedules_retry
    (stamp : Z) (es : list Event) (x : nat) (today : string) :
  let s := run es (init stamp) in
  isValidated s = false ->
  (isAdmin s = false \/ sameUser (Some x) (user s) = false ->
   let s' := step (Auth true (Some x)) s in
   timers s' = [nextId s]
   /\ timer s' = Some (nextId s)
   /\ started (step (TimerFires (nextId s) today) s') = S (started s)
   /\ fetches (step (TimerFires (nextId s) today) s') = S (fetches s))
  /\ (isAdmin s = true -> sameUser (Some x) (user s) = true ->
      step (Auth true (Some x)) s = s).
Proof.
  cbv zeta. intros V. destruct (run_due stamp es) as [[T1 _] _].
  set (s := run es (init stamp)) in *.
  split.
  - intros Changed. simpl. unfold onAuth.
    assert (Same : Bool.eqb true (isAdmin s) && sameUser (Some x) (user s) = false).
    { destruct Changed as [-> | ->]; [reflexivity | apply andb_false_r]. }
    rewrite Same.
    match goal with
    | |- timers (rerun ?y) = _ /\ _ => set (s0 := y)
    end.
    destruct (LatchFacts.cleanup_clears s0 T1) as [Ht Hc].
    destruct (ValidationFacts.cleanup_fields s0)
      as (A & U & Va & _ & N & _ & Sd & F & _).
    unfold rerun, effect. rewrite A, U, Va. simpl. rewrite V. simpl.
    rewrite Ht, N, Sd, F. simpl. rewrite Nat.eqb_refl. simpl.
    repeat split.
  - intros A Su. simpl. unfold onAuth. rewrite A, Su. reflexivity.
Qed.

Lemma reauthorization_schedules_retry_witness :
  let es := failingAtBookings 1 Scenario.day1 (mkError (Some "offline"%string)) in
  let s := run es (init 0) in
  isValidated s = false
  /\ sameUser (Some 2%nat) (user s) = false
  /\ timers (step (Auth true (Some 2%nat)) s) = [nextId s]
  /\ started (step (TimerFires (nextId s) Scenario.day1)
                (step (Auth true (Some 2%nat)) s)) = S (started s).
Proof.
  cbv zeta. split; [reflexivity|]. split; [reflexivity|].
  destruct (reauthorization_schedules_retry 0
              (failingAtBookings 1 Scenario.day1 (mkError (Some "offline"%string)))
              2%nat Scenario.day1 eq_refl) as [R _].
  destruct (R (or_intror eq_refl)) as (T & _ & S' & _).
  split; [exact T | exact S'].
Defined.


(** X17: what a first validation run costs and reports. A run in
    which nothing fails issues exactly three fetches, publishes once
    and emits one success toast carrying the four numbers it
    published. A run that fails stops at the failing fetch: one, two
    or three fetches were issued, nothing is published, the latch
    stays unset, the metrics stay zero and the only toast is the
    failure toast with the error's message. *)
Theorem validation_run_outcomes
    (stamp0 : Z) (u : nat) (D : string) (B : list Booking)
    (C : list Conversation) (K : list Client) (stamp : Z) (error : JsError) :
  (let s := run (firstRun u D B C K stamp) (init stamp0) in
   started s = 1%nat /\ fetches s = 3%nat /\ published s = 1%nat
   /\ isValidated s = true
   /\ stats s
      = mkStats (Spec.countOnDay B D) (Spec.sumUnread C) (Aggregate.len K)
          (Spec.sumCompleted Spec.nonzeroAmount B D) stamp
   /\ toasts s
      = [ToastSuccess (todaysBookings (stats s)) (pendingMessages (stats s))
           (activeCustomers (stats s)) (revenueToday (stats s))])
  /\ (let failure :=
        [ToastError ("System validation failed: " ++ interpolate (message error))] in
      let unpublished s :=
        published s = 0%nat /\ isValidated s = false
        /\ stats s = zeroStats stamp0 /\ toasts s = failure
        /\ runs s = [] /\ timers s = [] in
      let s1 := run (failingAtBookings u D error) (init stamp0) in
      let s2 := run (failingAtConversations u D B error) (init stamp0) in
      let s3 := run (failingAtClients u D B C error stamp) (init stamp0) in
      (fetches s1 = 1%nat /\ unpublished s1)
      /\ (fetches s2 = 2%nat /\ unpublished s2)
      /\ (fetches s3 = 3%nat /\ unpublished s3)).
Proof.
  split.
  - cbv zeta.
    destruct (ValidationFacts.firstRun_publishes stamp0 u D B C K stamp)
      as (V & S & T & _).
    split; [reflexivity|]. split; [reflexivity|]. split; [reflexivity|].
    split; [exact V|].
    assert (E : stats (run (firstRun u D B C K stamp) (init stamp0))
                = mkStats (Spec.countOnDay B D) (Spec.sumUnread C) (Aggregate.len K)
                    (Spec.sumCompleted Spec.nonzeroAmount B D) stamp).
    { rewrite S. unfold Aggregate.validationBookings, Aggregate.validationRevenue,
        Aggregate.queryByDate.
      rewrite AggregateFacts.len_todays, AggregateFacts.revenueOf_todays,
        AggregateFacts.pendingOf_sumUnread. reflexivity. }
    split; [exact E|]. rewrite T, S. reflexivity.
  - cbv zeta. repeat split.
Qed.

(** X18: the latch is read when the effect runs, not when a run
    publishes. A run whose last fetch resolves publishes its numbers
    and emits its success toast whether or not the latch is already
    set; so when the authorization changes while a run is suspended
    and the new settle timeout fires before that run ends, both runs
    publish, the later one overwriting the metrics. *)
Theorem publication_ignores_latch
    (s : State) (i : nat) (bookings : list Booking) (revenue pending : Z)
    (K : list Client) (stamp : Z) :
  findRun i (runs s) = Some (AwaitClients bookings revenue pending) ->
  let s' := step (ClientsFetched i (inr K) stamp) s in
  stats s' = mkStats (Aggregate.len bookings) pending (Aggregate.len K) revenue stamp
  /\ published s' = S (published s)
  /\ isValidated s' = true
  /\ toasts s'
     = toasts s
       ++ [ToastSuccess (Aggregate.len bookings) pending (Aggregate.len K) revenue]
  /\ findRun i (runs s') = None.
Proof.
  intros R. cbv zeta. simpl. rewrite R. simpl.
  set (st := mkStats (Aggregate.len bookings) pending (Aggregate.len K) revenue stamp).
  split; [apply ValidationFacts.publish_stats|].
  unfold publish. destruct (isValidated s) eqn:V.
  - simpl. repeat split. apply ValidationFacts.findRun_dropRun.
  - match goal with
    | |- published (rerun ?x) = _ /\ _ =>
        destruct (ValidationFacts.rerun_fields x)
          as (_ & _ & Va & _ & Ru & _ & _ & Pu & To)
    end.
    rewrite Va, Ru, Pu, To. simpl. repeat split.
    apply ValidationFacts.findRun_dropRun.
Qed.

Lemma publication_ignores_latch_witness :
  let overlap :=
    [Auth true (Some 1%nat); TimerFires 0 Scenario.day1;
     Auth true (Some 2%nat); TimerFires 1 Scenario.day1;
     BookingsFetched 0 (inr Scenario.bookings);
     ConversationsFetched 0 (inr Scenario.conversations);
     ClientsFetched 0 (inr [mkClient "k1"]) 7;
     BookingsFetched 1 (inr []); ConversationsFetched 1 (inr [])] in
  let s := run overlap (init 0) in
  isValidated s = true
  /\ stats s = mkStats 2 8 1 500 7
  /\ findRun 1 (runs s) = Some (AwaitClients [] 0 0)
  /\ stats (step (ClientsFetched 1 (inr []) 9) s) = mkStats 0 0 0 0 9
  /\ published (step (ClientsFetched 1 (inr []) 9) s) = 2%nat.
Proof.
  cbv zeta. split; [reflexivity|]. split; [reflexivity|]. split; [reflexivity|].
  destruct (publication_ignores_latch
              (run [Auth true (Some 1%nat); TimerFires 0 Scenario.day1;
                    Auth true (Some 2%nat); TimerFires 1 Scenario.day1;
                    BookingsFetched 0 (inr Scenario.bookings);
                    ConversationsFetched 0 (inr Scenario.conversations);
                    ClientsFetched 0 (inr [mkClient "k1"]) 7;
                    BookingsFetched 1 (inr []); ConversationsFetched 1 (inr [])]
                 (init 0))
              1%nat [] 0 0 [] 9 eq_refl) as (S & P & _).
  split; [exact S | exact P].
Defined.

End AuthorizationFacts.

(** ** Further properties of the route handler *)

Module RouteOutcomeFacts.

Import Route RouteOutcome.

(** X19: the accepted request. When the parsed body carries a truthy
    phoneNumber, amount and accountRef and [initiateStkPush] resolves,
    the handler answers 200 with the result as payload, and it has
    called [initiateStkPush] exactly once, with the three values as the
    body gave them and in that order. *)
Theorem POST_accepts
    (initiateStkPush : Value -> Value -> Value -> JsError + Json)
    (parsed result : Json) :
  truthy (prop "phoneNumber" parsed) = true ->
  truthy (prop "amount" parsed) = true ->
  truthy (prop "accountRef" parsed) = true ->
  initiateStkPush (prop "phoneNumber" parsed) (prop "amount" parsed)
    (prop "accountRef" parsed) = inr result ->
  POST initiateStkPush (inr parsed)
  = (Normal (mkResponse 200 result),
     [(prop "phoneNumber" parsed, prop "amount" parsed, prop "accountRef" parsed)]).
Proof.
  intros Hp Ha Hr Hcall. unfold POST, body. simpl.
  destruct parsed; simpl in *; try discriminate.
  rewrite Hp, Ha, Hr in *. simpl. rewrite Hcall. reflexivity.
Qed.

Lemma POST_accepts_witness :
  let echo : Value -> Value -> Value -> JsError + Json :=
    fun _ amount _ =>
      match amount with
      | Some a => inr (JObj [("CheckoutAmount"%string, a)])
      | None => inl (mkError None)
      end in
  let parsed :=
    JObj [("accountRef"%string, JStr "INV-1");
          ("amount"%string, JNum 150);
          ("phoneNumber"%string, JStr "254700000000");
          ("note"%string, JNull)] in
  POST echo (inr parsed)
  = (Normal (mkResponse 200 (JObj [("CheckoutAmount"%string, JNum 150)])),
     [(Some (JStr "254700000000"), Some (JNum 150), Some (JStr "INV-1"))]).
Proof.
  cbv zeta.
  apply (POST_accepts
           (fun _ amount _ =>
              match amount with
              | Some a => inr (JObj [("CheckoutAmount"%string, a)])
              | None => inl (mkError None)
              end)
           (JObj [("accountRef"%string, JStr "INV-1");
                  ("amount"%string, JNum 150);
                  ("phoneNumber"%string, JStr "254700000000");
                  ("note"%string, JNull)]));
    reflexivity.
Defined.

Lemma Json_eq_null (j : Json) : j = JNull \/ j <> JNull.
Proof. destruct j; [left; reflexivity | right; discriminate ..]. Qed.

Lemma messageOr_nonempty error fallback :
  fallback <> EmptyString -> messageOr error fallback <> EmptyString.
Proof.
  intros F. unfold messageOr. destruct (message error) as [m|]; [|exact F].
  destruct (String.eqb_spec m ""); [exact F | assumption].
Qed.

Lemma destructure_fields parsed :
  parsed <> JNull ->
  destructure parsed
  = Normal (prop "phoneNumber" parsed, prop "amount" parsed, prop "accountRef" parsed).
Proof. destruct parsed; try reflexivity; contradiction. Qed.

(** X20: when the promise of POST rejects and how it answers
    otherwise, with every way its collaborators can settle. The
    promise rejects exactly when a [null] or [undefined] is thrown
    inside the [try] block, because the [catch] block reads
    [error.message]. In every other case the handler answers: 200
    with the result after exactly one call that resolved with a JSON
    value; 400 with the missing-fields text and no call; or 500 with
    a text that is never empty after at most one call, which includes
    a call that resolved with a value [NextResponse.json] cannot
    serialize. On error objects and JSON results it is the handler
    [Route.POST]. *)
Theorem POST_answers_or_escapes
    (initiateStkPush : Value -> Value -> Value -> Settled (option Json))
    (requestJson : Settled Json) :
  ((exists e, fst (POSTfull initiateStkPush requestJson) = Escapes e)
   <-> throwsNullish initiateStkPush requestJson)
  /\ (forall r,
        fst (POSTfull initiateStkPush requestJson) = Answers r ->
        (exists p a ref result,
            initiateStkPush p a ref = Resolves (Some result)
            /\ r = okResponse result
            /\ snd (POSTfull initiateStkPush requestJson) = [(p, a, ref)])
        \/ (r = errorResponse missingFields 400
            /\ snd (POSTfull initiateStkPush requestJson) = [])
        \/ (exists text,
              text <> EmptyString
              /\ r = errorResponse text 500
              /\ (List.length (snd (POSTfull initiateStkPush requestJson)) <= 1)%nat))
  /\ (forall f rq,
        POSTfull (fun p a ref => settleResult (f p a ref)) (settle rq)
        = (reply (fst (POST f rq)), snd (POST f rq))).
Proof.
  assert (NE : forall error, messageOr error "Internal Server Error" <> EmptyString)
    by (intros error; apply messageOr_nonempty; discriminate).
  split; [|split].
  - (* rejection *)
    unfold POSTfull, tryBlock, throwsNullish.
    destruct requestJson as [parsed | [|e]].
    + destruct (Json_eq_null parsed) as [-> | Hn].
      * simpl. split.
        -- intros [e H]. discriminate.
        -- intros [H | (parsed & H & Hp & _)]; [discriminate|].
           injection H as <-. discriminate.
      * rewrite (destructure_fields parsed Hn).
        destruct (truthy (prop "phoneNumber" parsed)) eqn:Hp;
          destruct (truthy (prop "amount" parsed)) eqn:Ha;
          destruct (truthy (prop "accountRef" parsed)) eqn:Hr; simpl;
          try (split;
               [intros [e H]; discriminate
               |intros [H | (q & H & Hp' & Ha' & Hr' & _)];
                [discriminate | injection H as <-; congruence]]).
        destruct (initiateStkPush (prop "phoneNumber" parsed)
                    (prop "amount" parsed) (prop "accountRef" parsed))
          as [[result|] | [|e]] eqn:Call; simpl.
        -- split; [intros [e H]; discriminate|].
           intros [H | (q & H & _ & _ & _ & C)]; [discriminate|].
           injection H as <-. congruence.
        -- split; [intros [e H]; discriminate|].
           intros [H | (q & H & _ & _ & _ & C)]; [discriminate|].
           injection H as <-. congruence.
        -- split; [|intros _; eexists; reflexivity].
           intros _. right. exists parsed. repeat split; assumption.
        -- split; [intros [e' H]; discriminate|].
           intros [H | (q & H & _ & _ & _ & C)]; [discriminate|].
           injection H as <-. congruence.
    + simpl. split; [intros _; left; reflexivity | intros _; eexists; reflexivity].
    + simpl. split; [intros [e' H]; discriminate|].
      intros [H | (q & H & _)]; discriminate.
  - (* answers *)
    intros r. unfold POSTfull, tryBlock.
    destruct requestJson as [parsed | [|e]].
    + destruct (Json_eq_null parsed) as [-> | Hn].
      * simpl. intros [= <-]. right; right. eexists. split; [apply NE|].
        split; [reflexivity | simpl; lia].
      * rewrite (destructure_fields parsed Hn).
        destruct (negb (truthy (prop "phoneNumber" parsed))
                  || negb (truthy (prop "amount" parsed))
                  || negb (truthy (prop "accountRef" parsed))).
        -- simpl. intros [= <-]. right; left. split; reflexivity.
        -- destruct (initiateStkPush (prop "phoneNumber" parsed)
                       (prop "amount" parsed) (prop "accountRef" parsed))
             as [[result|] | [|e]] eqn:Call; simpl.
           ++ intros [= <-]. left.
              exists (prop "phoneNumber" parsed), (prop "amount" parsed),
                (prop "accountRef" parsed), result.
              repeat split. exact Call.
           ++ intros [= <-]. right; right. eexists. split; [apply NE|].
              split; [reflexivity | simpl; lia].
           ++ discriminate.
           ++ intros [= <-]. right; right. eexists. split; [apply NE|].
              split; [reflexivity | simpl; lia].
    + simpl. discriminate.
    + simpl. intros [= <-]. right; right. eexists. split; [apply NE|].
      split; [reflexivity | simpl; lia].
  - (* agreement *)
    intros f rq. unfold POSTfull, tryBlock, POST, body.
    destruct rq as [error | parsed]; simpl; [reflexivity|].
    destruct (destructure parsed) as [[[p a] ref] | e]; simpl; [|reflexivity].
    destruct (negb (truthy p) || negb (truthy a) || negb (truthy ref));
      [reflexivity|].
    destruct (f p a ref) as [error | result]; reflexivity.
Qed.

Lemma POST_answers_or_escapes_witness :
  let complete :=
    JObj [("phoneNumber"%string, JStr "254700000000");
          ("amount"%string, JNum 150);
          ("accountRef"%string, JStr "INV-1")] in
  let rejectsWithNull : Value -> Value -> Value -> Settled (option Json) :=
    fun _ _ _ => RejectsWith ThrownNullish in
  let resolvesUndefined : Value -> Value -> Value -> Settled (option Json) :=
    fun _ _ _ => Resolves None in
  throwsNullish rejectsWithNull (Resolves complete)
  /\ (exists e, fst (POSTfull rejectsWithNull (Resolves complete)) = Escapes e)
  /\ fst (POSTfull resolvesUndefined (Resolves complete))
     = Answers (errorResponse "Value is not JSON serializable" 500)
  /\ ((exists p a ref result,
          resolvesUndefined p a ref = Resolves (Some result)
          /\ errorResponse "Value is not JSON serializable" 500 = okResponse result
          /\ snd (POSTfull resolvesUndefined (Resolves complete)) = [(p, a, ref)])
      \/ (errorResponse "Value is not JSON serializable" 500
          = errorResponse missingFields 400
          /\ snd (POSTfull resolvesUndefined (Resolves complete)) = [])
      \/ (exists text,
            text <> EmptyString
            /\ errorResponse "Value is not JSON serializable" 500
               = errorResponse text 500
            /\ (List.length (snd (POSTfull resolvesUndefined (Resolves complete)))
                <= 1)%nat)).
Proof.
  cbv zeta.
  assert (T : throwsNullish (fun _ _ _ => RejectsWith ThrownNullish)
                (Resolves
                   (JObj [("phoneNumber"%string, JStr "254700000000");
                          ("amount"%string, JNum 150);
                          ("accountRef"%string, JStr "INV-1")]))).
  { right. eexists. split; [reflexivity|]. repeat split. }
  split; [exact T|].
  split.
  - apply (proj1 (POST_answers_or_escapes (fun _ _ _ => RejectsWith ThrownNullish) _)).
    exact T.
  - split; [reflexivity|].
    apply (proj1 (proj2 (POST_answers_or_escapes (fun _ _ _ => Resolves None)
                           (Resolves
                              (JObj [("phoneNumber"%string, JStr "254700000000");
                                     ("amount"%string, JNum 150);
                                     ("accountRef"%string, JStr "INV-1")]))))).
    reflexivity.
Defined.

(** X21: a body that parses to a string, a number, a boolean or an
    array carries none of the three names: the handler answers 400
    and does not call [initiateStkPush]. A body that parses to [null]
    cannot be destructured: the handler answers 500. *)
Theorem POST_on_non_objects
    (initiateStkPush : Value -> Value -> Value -> JsError + Json)
    (parsed : Json) :
  (isPrimitiveOrArray parsed = true ->
   POST initiateStkPush (inr parsed) = answer Rejected)
  /\ (exists text,
        POST initiateStkPush (inr JNull) = answer (Failed text)
        /\ Some text = message destructureError).
Proof.
  split.
  - destruct parsed; simpl; intros H; try discriminate; reflexivity.
  - eexists. split; reflexivity.
Qed.

Lemma POST_on_non_objects_witness :
  isPrimitiveOrArray (JArr [JStr "254700000000"; JNum 150; JStr "INV-1"]) = true
  /\ POST (fun _ _ _ => inr JNull)
        (inr (JArr [JStr "254700000000"; JNum 150; JStr "INV-1"]))
     = answer Rejected.
Proof.
  split; [reflexivity|].
  apply (POST_on_non_objects (fun _ _ _ => inr JNull)
           (JArr [JStr "254700000000"; JNum 150; JStr "INV-1"])).
  reflexivity.
Defined.

End RouteOutcomeFacts.

(** ** [getToday] *)

Module TodayFacts.

Import Today.

Lemma beforeT_app date : forall rest,
  hasT date = false -> beforeT (date ++ String "T" rest) = date.
Proof.
  induction date as [|ch date IH]; intros rest H; simpl in *.
  - reflexivity.
  - apply orb_false_elim in H. destruct H as [H1 H2].
    rewrite H1. rewrite (IH rest H2). reflexivity.
Qed.

Lemma beforeT_noT text : hasT (beforeT text) = false.
Proof.
  induction text as [|ch text IH]; simpl; [reflexivity|].
  destruct (Ascii.eqb ch "T") eqn:E; simpl; [reflexivity|].
  rewrite E, IH. reflexivity.
Qed.

Lemma beforeT_id text : hasT text = false -> beforeT text = text.
Proof.
  induction text as [|ch text IH]; simpl; intros H; [reflexivity|].
  apply orb_false_elim in H. destruct H as [H1 H2].
  rewrite H1, (IH H2). reflexivity.
Qed.

(** X22: [getToday] keeps the text before the first "T". For a time
    stamp made of a date without "T", a "T" and anything after it, the
    result is that date; the result never contains a "T"; a text
    without "T" is returned whole. *)
Theorem getToday_is_date_part (date rest text : string) :
  (hasT date = false -> getToday (date ++ String "T" rest) = date)
  /\ hasT (getToday text) = false
  /\ (hasT text = false -> getToday text = text)
  /\ getToday (getToday text) = getToday text.
Proof.
  unfold getToday. split; [apply beforeT_app|].
  split; [apply beforeT_noT|]. split; [apply beforeT_id|].
  apply beforeT_id. apply beforeT_noT.
Qed.

Lemma getToday_is_date_part_witness :
  hasT "2024-01-01" = false
  /\ getToday "2024-01-01T21:00:00.000Z" = "2024-01-01"%string.
Proof.
  split; [reflexivity|].
  apply (getToday_is_date_part "2024-01-01" "21:00:00.000Z" "").
  reflexivity.
Defined.

End TodayFacts.

(** ** The two effects together *)

Module HookFacts.

Import Hook.

Lemma step_keeps_latch e v :
  Validation.isValidated v = true ->
  Validation.isValidated (Validation.step e v) = true.
Proof.
  intros V. destruct e as [admin u | id today | i p | i p | i p stamp]; simpl.
  - unfold Validation.onAuth.
    destruct (Bool.eqb admin (Validation.isAdmin v)
              && Validation.sameUser u (Validation.user v)); [exact V|].
    match goal with
    | |- Validation.isValidated (Validation.rerun ?x) = true =>
        destruct (ValidationFacts.rerun_fields x) as (_ & _ & H & _); rewrite H
    end.
    exact V.
  - destruct (existsb (Nat.eqb id) (Validation.timers v)); exact V.
  - destruct (Validation.findRun i (Validation.runs v)) as [[today | b r | b r pm]|];
      try exact V.
    destruct p; exact V.
  - destruct (Validation.findRun i (Validation.runs v)) as [[today | b r | b r pm]|];
      try exact V.
    destruct p; exact V.
  - destruct (Validation.findRun i (Validation.runs v)) as [[today | b r | b r pm]|];
      try exact V.
    destruct p; simpl; [exact V|].
    unfold Validation.publish. rewrite V. reflexivity.
Qed.

Lemma listenersEffect_attached c v :
  match listenersEffect c v with
  | Some _ => true
  | None => false
  end = Validation.isValidated v && Validation.isAdmin v.
Proof.
  unfold listenersEffect.
  destruct (Validation.isValidated v), (Validation.isAdmin v); reflexivity.
Qed.

Lemma step_consistent stamp ev h : consistent stamp h -> consistent stamp (step ev h).
Proof.
  intros Hc. pose proof Hc as (A & T & Z0).
  destruct ev as [e c | e | i e]; simpl.
  - set (v' := Validation.step e (session h)).
    assert (T' : Validation.tidy v') by (apply LatchFacts.step_tidy; exact T).
    assert (Z' : Validation.isValidated v' = false ->
                 Validation.isValidated (session h) = false).
    { intros V'. destruct (Validation.isValidated (session h)) eqn:V; [|reflexivity].
      pose proof (step_keeps_latch e (session h) V) as K. fold v' in K. congruence. }
    assert (S' : Validation.isValidated v' = false ->
                 Validation.stats v' = Validation.zeroStats stamp).
    { intros V'. apply LatchFacts.step_unpublished; [|exact V'].
      intros V. apply Z0. exact V. }
    destruct (depsChanged (session h) v') eqn:D.
    + unfold consistent, rerunListeners, attached. simpl.
      split; [apply listenersEffect_attached|]. split; [exact T'|].
      intros V'. destruct (Z0 (Z' V')) as (_ & C & O).
      split; [exact (S' V')|]. unfold listenersEffect. rewrite V', C. simpl.
      split; [reflexivity | exact O].
    + unfold consistent, attached. simpl.
      unfold depsChanged in D. apply negb_false_iff in D.
      apply andb_prop in D. destruct D as [D1 D2].
      apply Bool.eqb_prop in D1. apply Bool.eqb_prop in D2.
      split; [unfold attached in A; rewrite A, D1, D2; reflexivity|].
      split; [exact T'|].
      intros V'. destruct (Z0 (Z' V')) as (_ & C & O).
      split; [exact (S' V') | split; assumption].
  - destruct (closure h) as [l|] eqn:C; [|exact Hc].
    destruct (Schedule.isTeardown e); [exact Hc|].
    unfold consistent, attached. simpl. unfold attached in A. rewrite C in A.
    split; [exact A|]. split; [exact T|].
    intros V. destruct (Z0 V) as (_ & C' & _). congruence.
  - destruct (nth_error (orphans h) i) as [l|] eqn:N; [|exact Hc].
    destruct (Schedule.isTeardown e); [exact Hc|].
    unfold consistent, attached. simpl.
    split; [exact A|]. split; [exact T|].
    intros V. destruct (Z0 V) as (_ & _ & O). rewrite O in N.
    destruct i; discriminate.
Qed.

Lemma run_consistent stamp es : consistent stamp (run es (init stamp)).
Proof.
  unfold run. rewrite <- (rev_involutive es).
  induction (rev es) as [|e l IH]; simpl.
  - split; [reflexivity|]. split; [apply LatchFacts.init_tidy|].
    intros _. repeat split.
  - rewrite fold_left_app. simpl. apply step_consistent. exact IH.
Qed.

(** X23: the second effect is gated by the latch and the admin flag.
    After any sequence of events the listeners are attached exactly
    when [isValidated] and [isAdmin] are both true; and as long as the
    latch is unset no closure exists, so the hook returns the initial
    zero metrics whatever the feeds deliver. *)
Theorem listeners_follow_latch_and_admin (stamp : Z) (es : list Event) :
  let h := run es (init stamp) in
  attached h
  = Validation.isValidated (session h) && Validation.isAdmin (session h)
  /\ (Validation.isValidated (session h) = false ->
      result h = (Validation.zeroStats stamp, false, stamp)
      /\ closure h = None /\ orphans h = []).
Proof.
  cbv zeta. destruct (run_consistent stamp es) as (A & _ & Z0).
  split; [exact A|]. intros V. destruct (Z0 V) as (S & C & O).
  unfold result. rewrite S, V. repeat split; assumption.
Qed.

Lemma listeners_follow_latch_and_admin_witness :
  let es :=
    [Feed (Listeners.BookingsSnapshot Scenario.lateDay1 Scenario.bookings);
     Session (Validation.Auth true (Some 1%nat)) Scenario.lateDay1;
     Feed (Listeners.ConversationsSnapshot Scenario.lateDay1 Scenario.conversations);
     Session (Validation.TimerFires 0 Scenario.day1) Scenario.lateDay1;
     Feed (Listeners.ClientsSnapshot Scenario.lateDay1 [mkClient "k1"])] in
  let h := run es (init 5) in
  Validation.isValidated (session h) = false
  /\ result h = (Validation.zeroStats 5, false, 5)
  /\ closure h = None.
Proof.
  cbv zeta. split; [reflexivity|].
  destruct (listeners_follow_latch_and_admin 5
              [Feed (Listeners.BookingsSnapshot Scenario.lateDay1 Scenario.bookings);
               Session (Validation.Auth true (Some 1%nat)) Scenario.lateDay1;
               Feed (Listeners.ConversationsSnapshot Scenario.lateDay1
                       Scenario.conversations);
               Session (Validation.TimerFires 0 Scenario.day1) Scenario.lateDay1;
               Feed (Listeners.ClientsSnapshot Scenario.lateDay1 [mkClient "k1"])])
    as (_ & Z0).
  destruct (Z0 eq_refl) as (R & C & _). split; assumption.
Defined.


(** An authorization event only touches the flags and the timeouts
    of the first effect. *)
Lemma onAuth_fields admin u v :
  let v' := Validation.onAuth admin u v in
  Validation.isAdmin v' = admin
  /\ Validation.isValidated v' = Validation.isValidated v
  /\ Validation.stats v' = Validation.stats v
  /\ Validation.started v' = Validation.started v
  /\ Validation.fetches v' = Validation.fetches v
  /\ Validation.published v' = Validation.published v.
Proof.
  cbv zeta. unfold Validation.onAuth.
  destruct (Bool.eqb admin (Validation.isAdmin v)
            && Validation.sameUser u (Validation.user v)) eqn:Same.
  - apply andb_prop in Same. destruct Same as [Sa _].
    apply Bool.eqb_prop in Sa. repeat split. symmetry. exact Sa.
  - match goal with
    | |- Validation.isAdmin (Validation.rerun ?x) = _ /\ _ =>
        destruct (ValidationFacts.rerun_fields x)
          as (A & _ & V & St & _ & Sd & F & P & _)
    end.
    rewrite A, V, St, Sd, F, P. repeat split.
Qed.

(** X24: the listeners depend on the admin flag, not on the user
    object. While they are attached, an authorization event that keeps
    the admin flag true leaves the closure, its timeouts and the
    metrics as they are, whatever user it carries, even none. *)
Theorem user_change_keeps_listeners
    (stamp : Z) (es : list Event) (u : option nat) (c : Listeners.Clock) :
  let h := run es (init stamp) in
  attached h = true ->
  let h' := step (Session (Validation.Auth true u) c) h in
  closure h' = closure h /\ orphans h' = orphans h /\ result h' = result h.
Proof.
  cbv zeta. intros At.
  destruct (run_consistent stamp es) as (A & _ & _).
  set (h := run es (init stamp)) in *.
  rewrite At in A. symmetry in A. apply andb_prop in A. destruct A as [V Ad].
  simpl.
  destruct (onAuth_fields true u (session h)) as (A' & V' & S' & _).
  assert (D : depsChanged (session h) (Validation.onAuth true u (session h)) = false).
  { unfold depsChanged. rewrite A', V', V, Ad. reflexivity. }
  rewrite D. unfold result. simpl. rewrite S', V'. repeat split.
Qed.

Lemma user_change_keeps_listeners_witness :
  let es :=
    map (fun e => Session e Scenario.lateDay1)
      (Validation.firstRun 1 Scenario.day1 Scenario.bookings
         Scenario.conversations [mkClient "k1"] 7) in
  let h := run es (init 0) in
  attached h = true
  /\ closure (step (Session (Validation.Auth true None) Scenario.earlyDay2) h)
     = closure h.
Proof.
  cbv zeta. split; [reflexivity|].
  apply (user_change_keeps_listeners 0
           (map (fun e => Session e Scenario.lateDay1)
              (Validation.firstRun 1 Scenario.day1 Scenario.bookings
                 Scenario.conversations [mkClient "k1"] 7))
           None Scenario.earlyDay2).
  reflexivity.
Defined.

(** X25: losing and regaining the admin flag. When the admin flag
    turns false while the listeners are attached, the cleanup runs on
    the closure and no closure is current any more; the metrics and
    the latch stay. When the flag turns true again, a fresh closure is
    set up on the metrics as they stand, for the day the clock then
    shows, and no validation is scheduled or started again. *)
Theorem admin_flag_toggles_listeners
    (stamp : Z) (es : list Event) (l : Listeners.State) (u u' : option nat)
    (c1 c2 : Listeners.Clock) :
  let h := run es (init stamp) in
  closure h = Some l ->
  let h1 := step (Session (Validation.Auth false u) c1) h in
  let h2 := step (Session (Validation.Auth true u') c2) h1 in
  closure h1 = None
  /\ orphans h1 = orphans h ++ [Listeners.exec Listeners.cleanup l]
  /\ result h1 = result h
  /\ closure h2 = Some (Listeners.mounted c2 (Validation.stats (session h)))
  /\ orphans h2 = orphans h1
  /\ result h2 = result h
  /\ Validation.timers (session h2) = []
  /\ Validation.started (session h2) = Validation.started (session h).
Proof.
  cbv zeta. intros C.
  destruct (run_consistent stamp es) as (A & (_ & T) & _).
  set (h := run es (init stamp)) in *.
  unfold attached in A. rewrite C in A. symmetry in A.
  apply andb_prop in A. destruct A as [V Ad].
  destruct (onAuth_fields false u (session h)) as (A1 & V1 & S1 & St1 & _).
  set (v1 := Validation.onAuth false u (session h)) in *.
  assert (D1 : depsChanged (session h) v1 = true).
  { unfold depsChanged. rewrite A1, V1, V, Ad. reflexivity. }
  assert (H1 : step (Session (Validation.Auth false u) c1) h
               = mkState v1 None (orphans h ++ [Listeners.exec Listeners.cleanup l])).
  { simpl. fold v1. rewrite D1. unfold rerunListeners, listenersEffect. simpl.
    rewrite A1, C. rewrite orb_true_r. reflexivity. }
  rewrite H1.
  destruct (onAuth_fields true u' v1) as (A2 & V2 & S2 & St2 & _).
  set (v2 := Validation.onAuth true u' v1) in *.
  assert (D2 : depsChanged v1 v2 = true).
  { unfold depsChanged. rewrite A1, A2, V2. simpl. apply negb_true_iff.
    apply andb_false_r. }
  assert (T1 : Validation.timers v1 = []).
  { destruct (LatchFacts.step_latched (Validation.Auth false u) (session h) V (T V))
      as (_ & X & _). exact X. }
  assert (T2 : Validation.timers v2 = []).
  { destruct (LatchFacts.step_latched (Validation.Auth true u') v1)
      as (_ & X & _); [congruence | exact T1 | exact X]. }
  simpl. fold v2. rewrite D2. unfold rerunListeners, listenersEffect, result. simpl.
  rewrite A2, V2, V1, V, S2, S1, St2, St1, T2. simpl. repeat split.
Qed.

Lemma admin_flag_toggles_listeners_witness :
  let es :=
    map (fun e => Session e Scenario.lateDay1)
      (Validation.firstRun 1 Scenario.day1 Scenario.bookings
         Scenario.conversations [mkClient "k1"] 7) in
  let h := run es (init 0) in
  let h2 :=
    step (Session (Validation.Auth true (Some 1%nat)) Scenario.earlyDay2)
      (step (Session (Validation.Auth false None) Scenario.lateDay1) h) in
  closure h = Some (Listeners.mounted Scenario.lateDay1 (mkStats 2 8 1 500 7))
  /\ closure h2 = Some (Listeners.mounted Scenario.earlyDay2 (mkStats 2 8 1 500 7))
  /\ Validation.started (session h2) = 1%nat.
Proof.
  cbv zeta.
  assert (C : closure
                (run (map (fun e => Session e Scenario.lateDay1)
                        (Validation.firstRun 1 Scenario.day1 Scenario.bookings
                           Scenario.conversations [mkClient "k1"] 7))
                   (init 0))
              = Some (Listeners.mounted Scenario.lateDay1 (mkStats 2 8 1 500 7)))
    by reflexivity.
  split; [exact C|].
  destruct (admin_flag_toggles_listeners 0 _ _ None (Some 1%nat)
              Scenario.lateDay1 Scenario.earlyDay2 C)
    as (_ & _ & _ & C2 & _ & _ & _ & S2).
  split; [exact C2 | exact S2].
Defined.

End HookFacts.
